(** * Schema.org JSON-LD builders of golf_course_schema.py

    A shallow embedding of the four builder classes [GolfCourseSchema],
    [ReviewSchema], [BreadcrumbSchema] and [TeeTimeEventSchema], and the
    properties of their [to_json] output.

    Python objects are modelled by their values: an instance is a record of
    its attributes, a method is a computation in a state monad over that
    record ([self.x] is a read, [self.x = v] and [self.x.append(v)] are
    writes), a [dict] is an association list in insertion order, and the
    builtins [str], [bool] and [len] are given their CPython meaning on the
    scalars the builders handle. *)

From Stdlib Require Import ZArith String Ascii List Bool Lia.
From Stdlib Require Import PrimFloat FloatOps SpecFloat DecimalString.
Import ListNotations.

#[local] Set Warnings "-inexact-float,-register-all".

Local Open Scope string_scope.
Local Open Scope Z_scope.

(* ===================================================================== *)
(** ** Python values *)
(* ===================================================================== *)

Module Py.

(** The scalars that reach [str(...)] and [if ...:] in the builders. *)
Inductive scalar : Type :=
| PyNone
| PyBool (b : bool)
| PyInt (z : Z)
| PyFloat (f : float)
| PyStr (s : string).

(** JSON-shaped values: what [to_json] returns.  A dict keeps its keys in
    insertion order, as Python's does. *)
Inductive value : Type :=
| Atom (a : scalar)
| PyList (l : list value)
| PyDict (d : list (string * value)).

Definition Str (s : string) : value := Atom (PyStr s).
Definition Int (z : Z) : value := Atom (PyInt z).

(** [bool(x)]: None, False, 0, 0.0 (and -0.0) and the empty string are
    falsy; everything else, NaN included, is truthy. *)
Definition truthy (a : scalar) : bool :=
  match a with
  | PyNone => false
  | PyBool b => b
  | PyInt z => negb (z =? 0)
  | PyFloat f => negb (PrimFloat.eqb f 0%float)
  | PyStr s => negb (String.eqb s "")
  end.

(** *** [str] of an int *)

Definition int_str (z : Z) : string := NilZero.string_of_int (Z.to_int z).

(** *** [str] of a float

    CPython prints the shortest decimal that reads back to the same
    binary64 (the nearest one among the shortest), in exponent form when the
    decimal point falls at or left of 10^-4 or right of 10^16. *)

(** The float is [m * 2^e].  With the unit [2^(e-2)] the float is [4m], the
    midpoint to the next float is [4m+2], and the midpoint to the previous
    one is [4m-2], or [4m-1] just above a power of two.  Numbers are kept
    as [k * P / Q] with [P], [Q] powers of two. *)
Record interval : Type := mkInterval {
  iv_lo : Z; iv_x : Z; iv_hi : Z;     (* in units *)
  iv_P : Z; iv_Q : Z;                 (* the unit is P / Q *)
  iv_closed : bool                    (* midpoints read back to the float *)
}.

Definition rounding_interval (m : positive) (e : Z) : interval :=
  let m := Z.pos m in
  let narrow := (m =? 2 ^ 52) && (-1074 <? e) in
  let u := e - 2 in
  {| iv_lo := 4 * m - (if narrow then 1 else 2);
     iv_x := 4 * m;
     iv_hi := 4 * m + 2;
     iv_P := 2 ^ Z.max u 0;
     iv_Q := 2 ^ Z.max (- u) 0;
     iv_closed := Z.even m |}.

(** Compare [c * 10^t] with [k * P / Q]. *)
Definition cmp_dec (iv : interval) (c t k : Z) : comparison :=
  (c * 10 ^ Z.max t 0 * iv_Q iv ?= k * iv_P iv * 10 ^ Z.max (- t) 0).

Definition in_interval (iv : interval) (c t : Z) : bool :=
  match cmp_dec iv c t (iv_lo iv), cmp_dec iv c t (iv_hi iv) with
  | Gt, Lt => true
  | Eq, Lt | Gt, Eq => iv_closed iv
  | _, _ => false
  end.

(** The [k] with [10^(k-1) <= x < 10^k], searched upwards from an
    underestimate. *)
Fixpoint first_pow10_above (fuel : nat) (iv : interval) (k : Z) : Z :=
  match fuel with
  | O => k
  | S fuel' =>
      match cmp_dec iv 1 k (iv_x iv) with
      | Gt => k
      | _ => first_pow10_above fuel' iv (k + 1)
      end
  end.

Definition decimal_exponent (m : positive) (e : Z) (iv : interval) : Z :=
  let b := Z.log2 (Z.pos m) + e in
  first_pow10_above 4 iv (b * 1233 / 4096 - 1).

(** The best [n]-digit candidate, if one reads back; [t = k - n]. *)
Definition candidate (iv : interval) (t : Z) : option Z :=
  let lo := (iv_x iv * iv_P iv * 10 ^ Z.max (- t) 0)
              / (iv_Q iv * 10 ^ Z.max t 0) in
  let hi := lo + 1 in
  match in_interval iv lo t, in_interval iv hi t with
  | true, false => Some lo
  | false, true => Some hi
  | false, false => None
  | true, true =>
      match (2 * iv_x iv * iv_P iv * 10 ^ Z.max (- t) 0
               ?= (2 * lo + 1) * 10 ^ Z.max t 0 * iv_Q iv) with
      | Lt => Some lo
      | Gt => Some hi
      | Eq => Some (if Z.even lo then lo else hi)
      end
  end.

Fixpoint shortest (fuel : nat) (iv : interval) (k n : Z) : Z * Z :=
  match fuel with
  | O => (iv_x iv * iv_P iv * 10 ^ Z.max (n - k) 0
            / (iv_Q iv * 10 ^ Z.max (k - n) 0), k - n)
  | S fuel' =>
      match candidate iv (k - n) with
      | Some c => (c, k - n)
      | None => shortest fuel' iv k (n + 1)
      end
  end.

Fixpoint strip_zeros (fuel : nat) (c : Z) : Z :=
  match fuel with
  | O => c
  | S fuel' => if (c mod 10 =? 0) && (0 <? c) then strip_zeros fuel' (c / 10) else c
  end.

Fixpoint zeros (n : nat) : string :=
  match n with
  | O => ""
  | S n' => "0" ++ zeros n'
  end.

(** Lay out the digits [ds], read as [0.ds * 10^decpt]. *)
Definition format_repr (ds : string) (decpt : Z) : string :=
  let n := Z.of_nat (String.length ds) in
  if (decpt <=? -4) || (16 <? decpt) then
    let x := decpt - 1 in
    let mant := if n =? 1 then ds
                else substring 0 1 ds ++ "." ++ substring 1 (String.length ds - 1) ds in
    let ax := int_str (Z.abs x) in
    mant ++ "e" ++ (if x <? 0 then "-" else "+")
         ++ (if Z.abs x <? 10 then "0" else "") ++ ax
  else if decpt <=? 0 then
    "0." ++ zeros (Z.to_nat (- decpt)) ++ ds
  else if n <=? decpt then
    ds ++ zeros (Z.to_nat (decpt - n)) ++ ".0"
  else
    substring 0 (Z.to_nat decpt) ds ++ "."
      ++ substring (Z.to_nat decpt) (String.length ds - Z.to_nat decpt) ds.

Definition float_str (f : float) : string :=
  match Prim2SF f with
  | S754_zero s => if s then "-0.0" else "0.0"
  | S754_infinity s => if s then "-inf" else "inf"
  | S754_nan => "nan"
  | S754_finite s m e =>
      let iv := rounding_interval m e in
      let k := decimal_exponent m e iv in
      let '(c, t) := shortest 17 iv k 1 in
      let width := String.length (int_str c) in
      let ds := int_str (strip_zeros width c) in
      (if s then "-" else "") ++ format_repr ds (t + Z.of_nat width)
  end.

(** *** [str(x)] *)
Definition str (a : scalar) : string :=
  match a with
  | PyNone => "None"
  | PyBool b => if b then "True" else "False"
  | PyInt z => int_str z
  | PyFloat f => float_str f
  | PyStr s => s
  end.

End Py.
Import Py.


(* ===================================================================== *)
(** ** Dicts and lists *)
(* ===================================================================== *)

Section Dict.
Context {V : Type}.

(** [d.get(k)] *)
Fixpoint dict_get (d : list (string * V)) (k : string) : option V :=
  match d with
  | [] => None
  | (k', v) :: d' => if String.eqb k' k then Some v else dict_get d' k
  end.

(** [d[k] = v]: an existing key keeps its place, a new one goes last. *)
Fixpoint dict_set (d : list (string * V)) (k : string) (v : V)
  : list (string * V) :=
  match d with
  | [] => [(k, v)]
  | (k', v') :: d' =>
      if String.eqb k' k then (k', v) :: d' else (k', v') :: dict_set d' k v
  end.
End Dict.

(** [bool(l)] of a list or dict: non-empty. *)
Definition nonempty {A : Type} (l : list A) : bool :=
  match l with
  | [] => false
  | _ :: _ => true
  end.

(** [len(l)] as a Python int. *)
Definition len {A : Type} (l : list A) : Z := Z.of_nat (List.length l).

(** [v[k]] on a returned value, for stating properties of the output. *)
Definition item (k : string) (v : value) : option value :=
  match v with
  | PyDict d => dict_get d k
  | _ => None
  end.

Definition item2 (k1 k2 : string) (v : value) : option value :=
  match item k1 v with
  | Some v' => item k2 v'
  | None => None
  end.

(* ===================================================================== *)
(** ** Methods: computations over the instance *)
(* ===================================================================== *)

Definition Method (S A : Type) : Type := S -> A * S.

Section Method.
Context {S : Type}.

Definition ret {A} (a : A) : Method S A := fun self => (a, self).

Definition bind {A B} (m : Method S A) (k : A -> Method S B) : Method S B :=
  fun self => let (a, self') := m self in k a self'.

(** Read an attribute: [self.x]. *)
Definition attr {A} (x : S -> A) : Method S A := fun self => (x self, self).

(** Write the instance: [self.x = v], [self.x.append(v)]. *)
Definition update (f : S -> S) : Method S unit := fun self => (tt, f self).

(** The value a method returns, and the instance it leaves. *)
Definition result {A} (m : Method S A) (self : S) : A := fst (m self).
Definition after {A} (m : Method S A) (self : S) : S := snd (m self).

(** A chain of calls [b.c1(...).c2(...)...] on one instance. *)
Fixpoint chain {C} (call : C -> Method S unit) (cs : list C) : Method S unit :=
  match cs with
  | [] => ret tt
  | c :: cs' => bind (call c) (fun _ => chain call cs')
  end.

(** A method that leaves every attribute as it found it. *)
Definition read_only {A} (m : Method S A) : Prop :=
  forall self, after m self = self.
End Method.

Notation "x <- m ;; k" := (bind m (fun x => k))
  (at level 61, m at next level, right associativity).
Notation "m ;; k" := (bind m (fun _ => k))
  (at level 61, right associativity).

(* ===================================================================== *)
(** ** class GolfCourseSchema *)
(* ===================================================================== *)

Module GolfCourse.

Record GolfCourseSchema : Type := mkGolfCourseSchema {
  name : string;
  url : string;
  telephone : string;
  email : string;
  street_address : string;
  city : string;
  state : string;
  postal_code : string;
  latitude : scalar;
  longitude : scalar;
  images : list string;
  opening_hours : list value;
  amenities : list string;
  course_specs : list (string * scalar);
  social_profiles : list string
}.

Definition init (name url telephone email street_address city state
    postal_code : string) (latitude longitude : scalar) : GolfCourseSchema :=
  {| name := name; url := url; telephone := telephone; email := email;
     street_address := street_address; city := city; state := state;
     postal_code := postal_code; latitude := latitude; longitude := longitude;
     images := [];
     opening_hours := [];
     amenities := [];
     course_specs := [];
     social_profiles := [] |}.

(** Attribute writes. *)
Definition with_images (v : list string) (self : GolfCourseSchema) :=
  {| name := name self; url := url self; telephone := telephone self;
     email := email self; street_address := street_address self;
     city := city self; state := state self; postal_code := postal_code self;
     latitude := latitude self; longitude := longitude self;
     images := v;
     opening_hours := opening_hours self;
     amenities := amenities self;
     course_specs := course_specs self;
     social_profiles := social_profiles self |}.

Definition with_opening_hours (v : list value) (self : GolfCourseSchema) :=
  {| name := name self; url := url self; telephone := telephone self;
     email := email self; street_address := street_address self;
     city := city self; state := state self; postal_code := postal_code self;
     latitude := latitude self; longitude := longitude self;
     images := images self;
     opening_hours := v;
     amenities := amenities self;
     course_specs := course_specs self;
     social_profiles := social_profiles self |}.

Definition with_amenities (v : list string) (self : GolfCourseSchema) :=
  {| name := name self; url := url self; telephone := telephone self;
     email := email self; street_address := street_address self;
     city := city self; state := state self; postal_code := postal_code self;
     latitude := latitude self; longitude := longitude self;
     images := images self;
     opening_hours := opening_hours self;
     amenities := v;
     course_specs := course_specs self;
     social_profiles := social_profiles self |}.

Definition with_course_specs (v : list (string * scalar))
    (self : GolfCourseSchema) :=
  {| name := name self; url := url self; telephone := telephone self;
     email := email self; street_address := street_address self;
     city := city self; state := state self; postal_code := postal_code self;
     latitude := latitude self; longitude := longitude self;
     images := images self;
     opening_hours := opening_hours self;
     amenities := amenities self;
     course_specs := v;
     social_profiles := social_profiles self |}.

Definition with_social_profiles (v : list string) (self : GolfCourseSchema) :=
  {| name := name self; url := url self; telephone := telephone self;
     email := email self; street_address := street_address self;
     city := city self; state := state self; postal_code := postal_code self;
     latitude := latitude self; longitude := longitude self;
     images := images self;
     opening_hours := opening_hours self;
     amenities := amenities self;
     course_specs := course_specs self;
     social_profiles := v |}.

Definition add_image (image_url : string) : Method GolfCourseSchema unit :=
  update (fun self => with_images (images self ++ [image_url]) self).

Definition add_opening_hours (day_of_week : list string) (opens closes : string)
  : Method GolfCourseSchema unit :=
  update (fun self =>
    with_opening_hours
      (opening_hours self ++
         [PyDict [ ("@type", Str "OpeningHoursSpecification");
                   ("dayOfWeek", PyList (map Str day_of_week));
                   ("opens", Str opens);
                   ("closes", Str closes) ]])
      self).

Definition add_amenity (amenity_name : string) : Method GolfCourseSchema unit :=
  update (fun self => with_amenities (amenities self ++ [amenity_name]) self).

(** [length_yards], [architect] and [established] default to [None]. *)
Definition set_course_specs (par holes rating slope
    length_yards architect established : scalar)
  : Method GolfCourseSchema unit :=
  update (with_course_specs
    [ ("par", par);
      ("holes", holes);
      ("rating", rating);
      ("slope", slope);
      ("length_yards", length_yards);
      ("architect", architect);
      ("established", established) ]).

Definition add_social_profile (profile_url : string)
  : Method GolfCourseSchema unit :=
  update (fun self =>
    with_social_profiles (social_profiles self ++ [profile_url]) self).

Definition build_address : Method GolfCourseSchema value :=
  street_address <- attr street_address ;;
  city <- attr city ;;
  state <- attr state ;;
  postal_code <- attr postal_code ;;
  ret (PyDict [ ("@type", Str "PostalAddress");
                ("streetAddress", Str street_address);
                ("addressLocality", Str city);
                ("addressRegion", Str state);
                ("postalCode", Str postal_code);
                ("addressCountry", Str "US") ]).

Definition build_geo : Method GolfCourseSchema value :=
  latitude <- attr latitude ;;
  longitude <- attr longitude ;;
  ret (PyDict [ ("@type", Str "GeoCoordinates");
                ("latitude", Atom latitude);
                ("longitude", Atom longitude) ]).

Definition build_amenities : Method GolfCourseSchema value :=
  amenities <- attr amenities ;;
  ret (PyList
         (map (fun amenity =>
                 PyDict [ ("@type", Str "LocationFeatureSpecification");
                          ("name", Str amenity) ])
              amenities)).

Definition property_value (name : string) (v : value) : value :=
  PyDict [ ("@type", Str "PropertyValue"); ("name", Str name); ("value", v) ].

(** [if specs.get(k): properties.append(...specs[k]...)].  [get] gives
    [None], which is falsy, for a missing key; inside the branch the key is
    there and [specs[k]] is the value [get] returned. *)
Definition if_get (specs : list (string * scalar)) (k : string)
    (body : scalar -> list value) (properties : list value) : list value :=
  match dict_get specs k with
  | Some v => if truthy v then properties ++ body v else properties
  | None => properties
  end.

Definition build_course_properties : Method GolfCourseSchema value :=
  specs <- attr course_specs ;;
  let properties := [] in
  let properties :=
    if_get specs "par"
      (fun par => [property_value "Par" (Str (str par))]) properties in
  let properties :=
    if_get specs "holes"
      (fun holes => [property_value "Holes" (Str (str holes))]) properties in
  let properties :=
    if_get specs "length_yards"
      (fun length_yards =>
         [ property_value "Length" (Str (str length_yards));
           property_value "Length Unit" (Str "yards") ]) properties in
  let properties :=
    if_get specs "rating"
      (fun rating => [property_value "Course Rating" (Str (str rating))])
      properties in
  let properties :=
    if_get specs "slope"
      (fun slope => [property_value "Slope Rating" (Str (str slope))])
      properties in
  let properties :=
    if_get specs "architect"
      (fun architect => [property_value "Course Architect" (Atom architect)])
      properties in
  let properties :=
    if_get specs "established"
      (fun established =>
         [property_value "Established" (Str (str established))])
      properties in
  ret (PyList properties).

Definition to_json : Method GolfCourseSchema value :=
  name <- attr name ;;
  url <- attr url ;;
  telephone <- attr telephone ;;
  email <- attr email ;;
  address <- build_address ;;
  geo <- build_geo ;;
  let schema :=
    [ ("@context", Str "https://schema.org");
      ("@type", PyList [Str "LocalBusiness"; Str "GolfCourse"]);
      ("name", Str name);
      ("url", Str url);
      ("telephone", Str telephone);
      ("email", Str email);
      ("address", address);
      ("geo", geo) ] in
  images <- attr images ;;
  let schema :=
    match images with
    | [] => schema
    | first :: _ =>
        dict_set schema "image"
          (if 1 <? len images then PyList (map Str images) else Str first)
    end in
  opening_hours <- attr opening_hours ;;
  let schema :=
    if nonempty opening_hours
    then dict_set schema "openingHoursSpecification" (PyList opening_hours)
    else schema in
  amenities <- attr amenities ;;
  schema <-
    (if nonempty amenities
     then features <- build_amenities ;;
          ret (dict_set schema "amenityFeature" features)
     else ret schema) ;;
  course_specs <- attr course_specs ;;
  schema <-
    (if nonempty course_specs
     then properties <- build_course_properties ;;
          ret (dict_set schema "additionalProperty" properties)
     else ret schema) ;;
  social_profiles <- attr social_profiles ;;
  let schema :=
    if nonempty social_profiles
    then dict_set schema "sameAs" (PyList (map Str social_profiles))
    else schema in
  ret (PyDict schema).

(** The mutator calls of the class. *)
Inductive call : Type :=
| AddImage (image_url : string)
| AddOpeningHours (day_of_week : list string) (opens closes : string)
| AddAmenity (amenity_name : string)
| SetCourseSpecs (par holes rating slope
    length_yards architect established : scalar)
| AddSocialProfile (profile_url : string).

Definition do_call (c : call) : Method GolfCourseSchema unit :=
  match c with
  | AddImage u => add_image u
  | AddOpeningHours d o c => add_opening_hours d o c
  | AddAmenity a => add_amenity a
  | SetCourseSpecs p h r s l a e => set_course_specs p h r s l a e
  | AddSocialProfile u => add_social_profile u
  end.

(** The URLs a chain of calls passes to [add_image], in call order. *)
Fixpoint added_images (cs : list call) : list string :=
  match cs with
  | [] => []
  | AddImage u :: cs' => u :: added_images cs'
  | _ :: cs' => added_images cs'
  end.

Definition is_set_course_specs (c : call) : bool :=
  match c with
  | SetCourseSpecs _ _ _ _ _ _ _ => true
  | _ => false
  end.

(** The arguments a chain passes to each of the other mutators, in call
    order; for [set_course_specs], those of its last call. *)
Fixpoint added_opening_hours (cs : list call)
  : list (list string * string * string) :=
  match cs with
  | [] => []
  | AddOpeningHours d o c :: cs' => (d, o, c) :: added_opening_hours cs'
  | _ :: cs' => added_opening_hours cs'
  end.

Fixpoint added_amenities (cs : list call) : list string :=
  match cs with
  | [] => []
  | AddAmenity a :: cs' => a :: added_amenities cs'
  | _ :: cs' => added_amenities cs'
  end.

Fixpoint added_social_profiles (cs : list call) : list string :=
  match cs with
  | [] => []
  | AddSocialProfile u :: cs' => u :: added_social_profiles cs'
  | _ :: cs' => added_social_profiles cs'
  end.

Fixpoint last_course_specs (cs : list call) : option call :=
  match cs with
  | [] => None
  | c :: cs' =>
      match last_course_specs cs' with
      | Some c' => Some c'
      | None => if is_set_course_specs c then Some c else None
      end
  end.

End GolfCourse.

(* ===================================================================== *)
(** ** class ReviewSchema *)
(* ===================================================================== *)

Module Review.

Record ReviewSchema : Type := mkReviewSchema {
  course_name : string;
  course_url : string;
  course_image : string;
  reviews : list value;
  rating_value : scalar;
  rating_count : scalar
}.

Definition init (course_name course_url course_image : string) : ReviewSchema :=
  {| course_name := course_name;
     course_url := course_url;
     course_image := course_image;
     reviews := [];
     rating_value := PyInt 0;
     rating_count := PyInt 0 |}.

Definition reviews_append (r : value) (self : ReviewSchema) : ReviewSchema :=
  {| course_name := course_name self;
     course_url := course_url self;
     course_image := course_image self;
     reviews := reviews self ++ [r];
     rating_value := rating_value self;
     rating_count := rating_count self |}.

Definition set_rating (v c : scalar) (self : ReviewSchema) : ReviewSchema :=
  {| course_name := course_name self;
     course_url := course_url self;
     course_image := course_image self;
     reviews := reviews self;
     rating_value := v;
     rating_count := c |}.

Definition add_review (headline body : string) (rating : scalar)
    (date_published author_name : string) : Method ReviewSchema unit :=
  update (reviews_append (PyDict
    [ ("@type", Str "Review");
      ("headline", Str headline);
      ("reviewBody", Str body);
      ("reviewRating", PyDict
         [ ("@type", Str "Rating");
           ("ratingValue", Str (str rating));
           ("bestRating", Str "5");
           ("worstRating", Str "1") ]);
      ("datePublished", Str date_published);
      ("author", PyDict
         [ ("@type", Str "Person");
           ("name", Str author_name) ]) ])).

Definition set_aggregate_rating (rating_value rating_count : scalar)
  : Method ReviewSchema unit :=
  update (set_rating rating_value rating_count).

Definition to_json : Method ReviewSchema value :=
  course_name <- attr course_name ;;
  course_url <- attr course_url ;;
  course_image <- attr course_image ;;
  rating_value <- attr rating_value ;;
  rating_count <- attr rating_count ;;
  reviews <- attr reviews ;;
  let schema :=
    [ ("@context", Str "https://schema.org");
      ("@type", Str "LocalBusiness");
      ("name", Str course_name);
      ("url", Str course_url);
      ("image", Str course_image);
      ("aggregateRating", PyDict
         [ ("@type", Str "AggregateRating");
           ("ratingValue", Str (str rating_value));
           ("bestRating", Str "5");
           ("worstRating", Str "1");
           ("ratingCount", Atom rating_count);
           ("reviewCount", Int (len reviews)) ]) ] in
  let schema :=
    if nonempty reviews then dict_set schema "review" (PyList reviews)
    else schema in
  ret (PyDict schema).

(** The mutator calls of the class. *)
Inductive call : Type :=
| AddReview (headline body : string) (rating : scalar)
    (date_published author_name : string)
| SetAggregateRating (rating_value rating_count : scalar).

Definition do_call (c : call) : Method ReviewSchema unit :=
  match c with
  | AddReview h b r d a => add_review h b r d a
  | SetAggregateRating v n => set_aggregate_rating v n
  end.

Definition is_add_review (c : call) : bool :=
  match c with
  | AddReview _ _ _ _ _ => true
  | SetAggregateRating _ _ => false
  end.

(** The arguments a chain passes to [add_review], in call order. *)
Fixpoint added_reviews (cs : list call)
  : list (string * string * scalar * string * string) :=
  match cs with
  | [] => []
  | AddReview h b r d a :: cs' => (h, b, r, d, a) :: added_reviews cs'
  | SetAggregateRating _ _ :: cs' => added_reviews cs'
  end.

End Review.

(* ===================================================================== *)
(** ** class BreadcrumbSchema *)
(* ===================================================================== *)

Module Breadcrumb.

Record BreadcrumbSchema : Type := mkBreadcrumbSchema {
  items : list value
}.

Definition init : BreadcrumbSchema := {| items := [] |}.

Definition items_append (it : value) (self : BreadcrumbSchema)
  : BreadcrumbSchema :=
  {| items := items self ++ [it] |}.

(** [url] defaults to [None]. *)
Definition add_item (name : string) (url : scalar)
  : Method BreadcrumbSchema unit :=
  items <- attr items ;;
  let position := len items + 1 in
  let item :=
    [ ("@type", Str "ListItem");
      ("position", Int position);
      ("name", Str name) ] in
  let item := if truthy url then dict_set item "item" (Atom url) else item in
  update (items_append (PyDict item)).

Definition to_json : Method BreadcrumbSchema value :=
  items <- attr items ;;
  ret (PyDict [ ("@context", Str "https://schema.org");
                ("@type", Str "BreadcrumbList");
                ("itemListElement", PyList items) ]).

(** The one mutator call of the class, by its arguments. *)
Definition call : Type := (string * scalar)%type.

Definition do_call (c : call) : Method BreadcrumbSchema unit :=
  add_item (fst c) (snd c).

End Breadcrumb.

(* ===================================================================== *)
(** ** class TeeTimeEventSchema *)
(* ===================================================================== *)

Module TeeTimeEvent.

Record TeeTimeEventSchema : Type := mkTeeTimeEventSchema {
  name : string;
  start_date : string;
  end_date : string;
  location_name : string;
  location_address : value;
  price : scalar;
  currency : string;
  availability : string;
  organizer_name : string;
  organizer_url : scalar;
  organizer_phone : scalar
}.

Definition default_currency : string := "USD".

Definition init (name start_date end_date location_name : string)
    (location_address : value) (price : scalar) (currency : string)
  : TeeTimeEventSchema :=
  {| name := name;
     start_date := start_date;
     end_date := end_date;
     location_name := location_name;
     location_address := location_address;
     price := price;
     currency := currency;
     availability := "InStock";
     organizer_name := "";
     organizer_url := PyStr "";
     organizer_phone := PyStr "" |}.

Definition with_availability (v : string) (self : TeeTimeEventSchema) :=
  {| name := name self;
     start_date := start_date self;
     end_date := end_date self;
     location_name := location_name self;
     location_address := location_address self;
     price := price self;
     currency := currency self;
     availability := v;
     organizer_name := organizer_name self;
     organizer_url := organizer_url self;
     organizer_phone := organizer_phone self |}.

Definition with_organizer (n : string) (u p : scalar)
    (self : TeeTimeEventSchema) :=
  {| name := name self;
     start_date := start_date self;
     end_date := end_date self;
     location_name := location_name self;
     location_address := location_address self;
     price := price self;
     currency := currency self;
     availability := availability self;
     organizer_name := n;
     organizer_url := u;
     organizer_phone := p |}.

Definition set_availability (availability : string)
  : Method TeeTimeEventSchema unit :=
  update (with_availability availability).

(** [url] and [phone] default to [None]. *)
Definition set_organizer (name : string) (url phone : scalar)
  : Method TeeTimeEventSchema unit :=
  update (with_organizer name url phone).

Definition to_json : Method TeeTimeEventSchema value :=
  organizer_name <- attr organizer_name ;;
  let organizer :=
    [ ("@type", Str "Organization");
      ("name", Str organizer_name) ] in
  organizer_url <- attr organizer_url ;;
  let organizer :=
    if truthy organizer_url then dict_set organizer "url" (Atom organizer_url)
    else organizer in
  organizer_phone <- attr organizer_phone ;;
  let organizer :=
    if truthy organizer_phone
    then dict_set organizer "telephone" (Atom organizer_phone)
    else organizer in
  name <- attr name ;;
  start_date <- attr start_date ;;
  end_date <- attr end_date ;;
  location_name <- attr location_name ;;
  location_address <- attr location_address ;;
  price <- attr price ;;
  currency <- attr currency ;;
  availability <- attr availability ;;
  ret (PyDict
    [ ("@context", Str "https://schema.org");
      ("@type", Str "SportsEvent");
      ("name", Str name);
      ("startDate", Str start_date);
      ("endDate", Str end_date);
      ("eventStatus", Str "https://schema.org/EventScheduled");
      ("eventAttendanceMode",
         Str "https://schema.org/OfflineEventAttendanceMode");
      ("location", PyDict
         [ ("@type", Str "GolfCourse");
           ("name", Str location_name);
           ("address", location_address) ]);
      ("offers", PyDict
         [ ("@type", Str "Offer");
           ("price", Str (str price));
           ("priceCurrency", Str currency);
           ("availability", Str ("https://schema.org/" ++ availability)) ]);
      ("organizer", PyDict organizer) ]).

(** The mutator calls of the class. *)
Inductive call : Type :=
| SetAvailability (availability : string)
| SetOrganizer (name : string) (url phone : scalar).

Definition do_call (c : call) : Method TeeTimeEventSchema unit :=
  match c with
  | SetAvailability a => set_availability a
  | SetOrganizer n u p => set_organizer n u p
  end.

Definition is_set_organizer (c : call) : bool :=
  match c with
  | SetOrganizer _ _ _ => true
  | SetAvailability _ => false
  end.

(** The argument of the last [set_availability] call of a chain. *)
Fixpoint last_availability (cs : list call) : option string :=
  match cs with
  | [] => None
  | c :: cs' =>
      match last_availability cs', c with
      | Some a, _ => Some a
      | None, SetAvailability a => Some a
      | None, SetOrganizer _ _ _ => None
      end
  end.

End TeeTimeEvent.

(* ===================================================================== *)
(** ** Reading the output *)
(* ===================================================================== *)

(** An entry of an [additionalProperty] list is found by its ["name"]. *)
Definition named (n : string) (e : value) : bool :=
  match item "name" e with
  | Some (Atom (PyStr s)) => String.eqb s n
  | _ => false
  end.

Definition find_property (n : string) (props : value) : option value :=
  match props with
  | PyList l => find (named n) l
  | _ => None
  end.

(** [v[i]] on a returned list. *)
Definition index (i : nat) (v : value) : option value :=
  match v with
  | PyList l => nth_error l i
  | _ => None
  end.

(** The keys of a returned dict, in order. *)
Definition keys (v : value) : list string :=
  match v with
  | PyDict d => map fst d
  | _ => []
  end.

(** The ["name"] of an entry, when it is a string. *)
Definition entry_name (e : value) : option string :=
  match item "name" e with
  | Some (Atom (PyStr s)) => Some s
  | _ => None
  end.

Definition has_property (props : value) (n : string) : bool :=
  match find_property n props with
  | Some _ => true
  | None => false
  end.

(** Calling [m] twice in a row: the second call, made on the instance the
    first one left, returns an equal value, and the first call left the
    instance as it was.  ([to_json] hands out the stored lists themselves,
    not copies; with nothing written between the two calls both read the
    same contents, which is what equality of values says.) *)
Definition repeatable {S A : Type} (m : Method S A) : Prop :=
  forall self : S,
    result m (after m self) = result m self /\ after m self = self.

(** The course of the end-to-end example: the constructor, one amenity and
    the four required specs; [length_yards], [architect] and [established]
    keep their default [None]. *)
Definition pine_valley (url telephone email street_address city state
    postal_code : string) (latitude longitude : scalar)
  : GolfCourse.GolfCourseSchema :=
  after
    (GolfCourse.add_amenity "Pro Shop" ;;
     GolfCourse.set_course_specs (PyInt 72) (PyInt 18) (PyFloat 76.5)
       (PyInt 147) PyNone PyNone PyNone)
    (GolfCourse.init "Pine Valley Golf Club" url telephone email
       street_address city state postal_code latitude longitude).

Definition pine_valley_demo : GolfCourse.GolfCourseSchema :=
  pine_valley "https://example.com/courses/pine-valley" "+1-609-465-3886"
    "reservations@pinevalley.com" "123 Fairway Drive" "Pine Valley" "NJ"
    "08021" (PyFloat 39.8093) (PyFloat (-74.8902)).

(* ===================================================================== *)
(** * Properties *)
(* ===================================================================== *)

(** Sample renderings, as CPython prints them. *)
Example float_str_samples :
  map float_str [76.5; 4.9; 185.0; 39.8093; -74.8902; 1e16; 0.00001; 1e23]%float
  = ["76.5"; "4.9"; "185.0"; "39.8093"; "-74.8902"; "1e+16"; "1e-05"; "1e+23"].
Proof. vm_compute. reflexivity. Qed.

Example str_samples :
  map str [PyNone; PyBool true; PyInt 72; PyInt (-5); PyInt 0; PyStr "x"]
  = ["None"; "True"; "72"; "-5"; "0"; "x"].
Proof. reflexivity. Qed.

Example truthy_samples :
  map truthy [PyNone; PyBool false; PyInt 0; PyFloat 0; PyFloat (-0); PyStr "";
              PyInt 72; PyFloat 76.5; PyFloat nan; PyStr "0"]
  = [false; false; false; false; false; false; true; true; true; true].
Proof. vm_compute. reflexivity. Qed.

(** The tee time of the module's usage example. *)
Example tee_time_demo :
  result TeeTimeEvent.to_json
    (after (TeeTimeEvent.set_availability "InStock" ;;
            TeeTimeEvent.set_organizer "Pine Valley Golf Club"
              (PyStr "https://example.com") (PyStr "+1-609-465-3886"))
       (TeeTimeEvent.init "Golf Tee Time - 8:00 AM"
          "2026-02-15T08:00:00-05:00" "2026-02-15T12:00:00-05:00"
          "Pine Valley Golf Club"
          (PyDict [ ("@type", Str "PostalAddress");
                    ("streetAddress", Str "123 Fairway Drive");
                    ("addressLocality", Str "Pine Valley");
                    ("addressRegion", Str "NJ");
                    ("postalCode", Str "08021") ])
          (PyFloat 185.00) "USD"))
  = PyDict
      [ ("@context", Str "https://schema.org");
        ("@type", Str "SportsEvent");
        ("name", Str "Golf Tee Time - 8:00 AM");
        ("startDate", Str "2026-02-15T08:00:00-05:00");
        ("endDate", Str "2026-02-15T12:00:00-05:00");
        ("eventStatus", Str "https://schema.org/EventScheduled");
        ("eventAttendanceMode",
           Str "https://schema.org/OfflineEventAttendanceMode");
        ("location", PyDict
           [ ("@type", Str "GolfCourse");
             ("name", Str "Pine Valley Golf Club");
             ("address", PyDict
                [ ("@type", Str "PostalAddress");
                  ("streetAddress", Str "123 Fairway Drive");
                  ("addressLocality", Str "Pine Valley");
                  ("addressRegion", Str "NJ");
                  ("postalCode", Str "08021") ]) ]);
        ("offers", PyDict
           [ ("@type", Str "Offer");
             ("price", Str "185.0");
             ("priceCurrency", Str "USD");
             ("availability", Str "https://schema.org/InStock") ]);
        ("organizer", PyDict
           [ ("@type", Str "Organization");
             ("name", Str "Pine Valley Golf Club");
             ("url", Str "https://example.com");
             ("telephone", Str "+1-609-465-3886") ]) ].
Proof. vm_compute. reflexivity. Qed.

(** The demo course with its two images: the output in full. *)
Example golf_course_demo :
  result GolfCourse.to_json
    (after (GolfCourse.add_image "https://example.com/images/pine-valley-hero.jpg" ;;
            GolfCourse.add_image "https://example.com/images/clubhouse.jpg" ;;
            GolfCourse.add_opening_hours ["Saturday"; "Sunday"] "06:00" "17:00" ;;
            GolfCourse.set_course_specs (PyInt 72) (PyInt 18) (PyFloat 76.5)
              (PyInt 147) (PyInt 6701)
              (PyStr "George Arthur Crump, Hugh Wilson") (PyInt 1913) ;;
            GolfCourse.add_social_profile "https://twitter.com/pinevalley")
       pine_valley_demo)
  = PyDict
      [ ("@context", Str "https://schema.org");
        ("@type", PyList [Str "LocalBusiness"; Str "GolfCourse"]);
        ("name", Str "Pine Valley Golf Club");
        ("url", Str "https://example.com/courses/pine-valley");
        ("telephone", Str "+1-609-465-3886");
        ("email", Str "reservations@pinevalley.com");
        ("address", PyDict
           [ ("@type", Str "PostalAddress");
             ("streetAddress", Str "123 Fairway Drive");
             ("addressLocality", Str "Pine Valley");
             ("addressRegion", Str "NJ");
             ("postalCode", Str "08021");
             ("addressCountry", Str "US") ]);
        ("geo", PyDict
           [ ("@type", Str "GeoCoordinates");
             ("latitude", Atom (PyFloat 39.8093));
             ("longitude", Atom (PyFloat (-74.8902))) ]);
        ("image", PyList
           [ Str "https://example.com/images/pine-valley-hero.jpg";
             Str "https://example.com/images/clubhouse.jpg" ]);
        ("openingHoursSpecification", PyList
           [ PyDict [ ("@type", Str "OpeningHoursSpecification");
                      ("dayOfWeek", PyList [Str "Saturday"; Str "Sunday"]);
                      ("opens", Str "06:00");
                      ("closes", Str "17:00") ] ]);
        ("amenityFeature", PyList
           [ PyDict [ ("@type", Str "LocationFeatureSpecification");
                      ("name", Str "Pro Shop") ] ]);
        ("additionalProperty", PyList
           [ GolfCourse.property_value "Par" (Str "72");
             GolfCourse.property_value "Holes" (Str "18");
             GolfCourse.property_value "Length" (Str "6701");
             GolfCourse.property_value "Length Unit" (Str "yards");
             GolfCourse.property_value "Course Rating" (Str "76.5");
             GolfCourse.property_value "Slope Rating" (Str "147");
             GolfCourse.property_value "Course Architect"
               (Str "George Arthur Crump, Hugh Wilson");
             GolfCourse.property_value "Established" (Str "1913") ]);
        ("sameAs", PyList [Str "https://twitter.com/pinevalley"]) ].
Proof. vm_compute. reflexivity. Qed.

(** ** Dicts *)

Section DictFacts.
Context {V : Type}.

Lemma dict_get_set_same (d : list (string * V)) k v :
  dict_get (dict_set d k v) k = Some v.
Proof.
  induction d as [|[k' v'] d IH]; simpl.
  - now rewrite String.eqb_refl.
  - destruct (String.eqb k' k) eqn:E; simpl; rewrite E; auto.
Qed.

Lemma dict_get_set_other (d : list (string * V)) k k' v :
  k <> k' -> dict_get (dict_set d k v) k' = dict_get d k'.
Proof.
  intros Hk. induction d as [|[k0 v0] d IH]; simpl.
  - apply String.eqb_neq in Hk. now rewrite Hk.
  - destruct (String.eqb k0 k) eqn:E; simpl.
    + apply String.eqb_eq in E. subst k0.
      apply String.eqb_neq in Hk. now rewrite Hk.
    + destruct (String.eqb k0 k'); auto.
Qed.
End DictFacts.

Lemma len_cons {A} (a : A) (l : list A) : len (a :: l) = len l + 1.
Proof. unfold len. simpl length. lia. Qed.

Lemma len_app {A} (l1 l2 : list A) : len (l1 ++ l2) = len l1 + len l2.
Proof. unfold len. rewrite length_app. lia. Qed.

Lemma len_nonneg {A} (l : list A) : 0 <= len l.
Proof. unfold len. lia. Qed.

(** ** Methods *)

Section MethodFacts.
Context {S : Type}.

Lemma after_bind {A B} (m : Method S A) (k : A -> Method S B) self :
  after (bind m k) self = after (k (result m self)) (after m self).
Proof. unfold after, result, bind. destruct (m self); reflexivity. Qed.

Lemma result_bind {A B} (m : Method S A) (k : A -> Method S B) self :
  result (bind m k) self = result (k (result m self)) (after m self).
Proof. unfold after, result, bind. destruct (m self); reflexivity. Qed.

Lemma chain_app {C} (call : C -> Method S unit) (cs1 cs2 : list C) self :
  after (chain call (cs1 ++ cs2)) self
  = after (chain call cs2) (after (chain call cs1) self).
Proof.
  revert self. induction cs1 as [|c cs1 IH]; intros self; simpl.
  - reflexivity.
  - rewrite !after_bind. apply IH.
Qed.

Lemma chain_snoc {C} (call : C -> Method S unit) (cs : list C) (c : C) self :
  after (chain call (cs ++ [c])) self
  = after (call c) (after (chain call cs) self).
Proof. rewrite chain_app. simpl. rewrite after_bind. reflexivity. Qed.

Lemma chain_cons {C} (call : C -> Method S unit) (c : C) (cs : list C) self :
  after (chain call (c :: cs)) self
  = after (chain call cs) (after (call c) self).
Proof. simpl. now rewrite after_bind. Qed.

Lemma read_only_ret {A} (a : A) : read_only (S:=S) (ret a).
Proof. intro self. reflexivity. Qed.

Lemma read_only_attr {A} (x : S -> A) : read_only (attr x).
Proof. intro self. reflexivity. Qed.

Lemma read_only_bind {A B} (m : Method S A) (k : A -> Method S B) :
  read_only m -> (forall a, read_only (k a)) -> read_only (bind m k).
Proof.
  intros Hm Hk self. rewrite after_bind, Hm. apply Hk.
Qed.

Lemma read_only_if {A} (b : bool) (m1 m2 : Method S A) :
  read_only m1 -> read_only m2 -> read_only (if b then m1 else m2).
Proof. destruct b; auto. Qed.

Lemma read_only_repeatable {A} (m : Method S A) :
  read_only m -> repeatable m.
Proof. intros Hm self. rewrite Hm. split; reflexivity. Qed.
End MethodFacts.

Create HintDb read_only.

(** Reads compose: walk the binds of a method body, closing the calls of
    other read-only methods from the hint database. *)
Ltac read_only :=
  repeat lazymatch goal with
    | |- read_only (ret _) => apply read_only_ret
    | |- read_only (attr _) => apply read_only_attr
    | |- read_only (bind _ _) => apply read_only_bind; [| intro; cbv zeta ]
    | |- read_only (if _ then _ else _) => apply read_only_if
    | |- read_only _ => solve [ auto with read_only ]
    end.

(** ** GolfCourseSchema *)

Section GolfCourseFacts.
Import GolfCourse.

Lemma build_address_read_only : read_only build_address.
Proof. unfold build_address. read_only. Qed.

Lemma build_geo_read_only : read_only build_geo.
Proof. unfold build_geo. read_only. Qed.

Lemma build_amenities_read_only : read_only build_amenities.
Proof. unfold build_amenities. read_only. Qed.

Lemma build_course_properties_read_only : read_only build_course_properties.
Proof. unfold build_course_properties. read_only. Qed.

#[local] Hint Resolve build_address_read_only build_geo_read_only
  build_amenities_read_only build_course_properties_read_only : read_only.

Lemma golf_course_to_json_read_only : read_only to_json.
Proof. unfold to_json. read_only. Qed.

End GolfCourseFacts.

Section GolfCourseOutput.
Import GolfCourse.

Lemma two_or_more {A} (a b : A) (l : list A) : (1 <? len (a :: b :: l)) = true.
Proof. rewrite !len_cons. pose proof (len_nonneg l). apply Z.ltb_lt. lia. Qed.

(** The ["image"] entry, from the stored list. *)
Lemma to_json_image (self : GolfCourseSchema) :
  item "image" (result to_json self)
  = match images self with
    | [] => None
    | [u] => Some (Str u)
    | _ :: _ :: _ => Some (PyList (map Str (images self)))
    end.
Proof.
  destruct self as [n u t e sa c st pc la lo imgs hours ams specs socs].
  unfold result, to_json, build_address, build_geo, build_amenities,
    build_course_properties, bind, attr, ret. cbn [fst snd images opening_hours amenities course_specs social_profiles
      GolfCourse.name GolfCourse.url telephone email street_address city state postal_code latitude longitude].
  destruct imgs as [|i1 [|i2 imgs]];
    [ | | rewrite two_or_more ];
    destruct hours, ams, specs, socs; reflexivity.
Qed.

(** The ["additionalProperty"] entry is there exactly when the specs dict
    is non-empty, and holds what [build_course_properties] returns. *)
Lemma to_json_additional_property (self : GolfCourseSchema) :
  item "additionalProperty" (result to_json self)
  = if nonempty (course_specs self)
    then Some (result build_course_properties self)
    else None.
Proof.
  destruct self as [n u t e sa c st pc la lo imgs hours ams specs socs].
  unfold result, to_json, build_address, build_geo, build_amenities,
    bind, attr, ret. cbn [fst snd images opening_hours amenities course_specs social_profiles
      GolfCourse.name GolfCourse.url telephone email street_address city state postal_code latitude longitude].
  destruct imgs as [|i1 imgs], hours, ams, specs, socs; reflexivity.
Qed.

End GolfCourseOutput.

Section GolfCourseChains.
Import GolfCourse.

Lemma added_images_app (cs1 cs2 : list call) :
  added_images (cs1 ++ cs2) = (added_images cs1 ++ added_images cs2)%list.
Proof.
  induction cs1 as [|c cs1 IH]; simpl; [reflexivity|].
  destruct c; simpl; now rewrite IH.
Qed.

(** The stored image list is the constructor's empty list followed by the
    arguments of the [add_image] calls, in call order. *)
Lemma images_after_chain (cs : list call) (self : GolfCourseSchema) :
  images (after (chain do_call cs) self)
  = (images self ++ added_images cs)%list.
Proof.
  revert self. induction cs as [|c cs IH]; intros self.
  - simpl. now rewrite app_nil_r.
  - rewrite chain_cons, IH. destruct c; simpl; try reflexivity.
    now rewrite <- app_assoc.
Qed.

(** Only [set_course_specs] writes the specs dict. *)
Lemma course_specs_kept (cs : list call) (self : GolfCourseSchema) :
  existsb is_set_course_specs cs = false ->
  course_specs (after (chain do_call cs) self) = course_specs self.
Proof.
  revert self. induction cs as [|c cs IH]; intros self Hcs.
  - reflexivity.
  - simpl in Hcs. apply orb_false_elim in Hcs. destruct Hcs as [Hc Hcs].
    rewrite chain_cons, IH by assumption.
    destruct c; try reflexivity. discriminate.
Qed.

Lemma course_specs_nonempty (cs : list call) (self : GolfCourseSchema) :
  nonempty (course_specs (after (chain do_call cs) self))
  = nonempty (course_specs self) || existsb is_set_course_specs cs.
Proof.
  revert self. induction cs as [|c cs IH]; intros self.
  - simpl. now rewrite orb_false_r.
  - rewrite chain_cons, IH. destruct c; simpl; try reflexivity.
    now rewrite orb_true_r.
Qed.

(** [build_course_properties] reads nothing but the specs dict. *)
Lemma build_course_properties_specs (s1 s2 : GolfCourseSchema) :
  course_specs s1 = course_specs s2 ->
  result build_course_properties s1 = result build_course_properties s2.
Proof.
  intros H. unfold result, build_course_properties, bind, attr, ret.
  simpl. now rewrite H.
Qed.

(** What [build_course_properties] returns once [set_course_specs] has
    stored its seven arguments. *)
Lemma properties_after_set_course_specs (self : GolfCourseSchema)
    (par holes rating slope length_yards architect established : scalar) :
  result build_course_properties
    (after (set_course_specs par holes rating slope
              length_yards architect established) self)
  = PyList
      ((if truthy par then [property_value "Par" (Str (str par))] else [])
       ++ (if truthy holes
           then [property_value "Holes" (Str (str holes))] else [])
       ++ (if truthy length_yards
           then [ property_value "Length" (Str (str length_yards));
                  property_value "Length Unit" (Str "yards") ]
           else [])
       ++ (if truthy rating
           then [property_value "Course Rating" (Str (str rating))] else [])
       ++ (if truthy slope
           then [property_value "Slope Rating" (Str (str slope))] else [])
       ++ (if truthy architect
           then [property_value "Course Architect" (Atom architect)] else [])
       ++ (if truthy established
           then [property_value "Established" (Str (str established))]
           else []))%list.
Proof.
  unfold result, build_course_properties, bind, attr, ret, if_get.
  cbn [fst snd after set_course_specs update course_specs with_course_specs
       dict_get String.eqb Ascii.eqb Bool.eqb].
  destruct (truthy par), (truthy holes), (truthy length_yards),
    (truthy rating), (truthy slope), (truthy architect),
    (truthy established); reflexivity.
Qed.

Lemma additional_property_after_set_course_specs (self : GolfCourseSchema)
    (par holes rating slope length_yards architect established : scalar) :
  let self' := after (set_course_specs par holes rating slope
                        length_yards architect established) self in
  item "additionalProperty" (result to_json self')
  = Some (result build_course_properties self').
Proof. intros self'. now rewrite to_json_additional_property. Qed.

End GolfCourseChains.

(** C1 (as the code has it).  The course built with name "Pine Valley Golf
    Club", one amenity "Pro Shop" and specs par=72, holes=18, rating=76.5,
    slope=147, with length_yards, architect and established unset, has an
    additionalProperty list of exactly four entries, in the order Par,
    Holes, Course Rating, Slope Rating; Length and Length Unit are left
    out. *)
Theorem pine_valley_additional_property :
  forall (url telephone email street_address city state postal_code : string)
         (latitude longitude : scalar),
    item "additionalProperty"
      (result GolfCourse.to_json
         (pine_valley url telephone email street_address city state
            postal_code latitude longitude))
    = Some (PyList
        [ GolfCourse.property_value "Par" (Str "72");
          GolfCourse.property_value "Holes" (Str "18");
          GolfCourse.property_value "Course Rating" (Str "76.5");
          GolfCourse.property_value "Slope Rating" (Str "147") ]).
Proof.
  intros. unfold pine_valley. rewrite after_bind.
  rewrite additional_property_after_set_course_specs.
  rewrite properties_after_set_course_specs.
  vm_compute. reflexivity.
Qed.

(** The demo course refutes the count of five: its additionalProperty
    list is not a list of five entries. *)
Lemma pine_valley_not_five_entries :
  ~ (exists props : list value,
       item "additionalProperty" (result GolfCourse.to_json pine_valley_demo)
       = Some (PyList props)
       /\ List.length props = 5%nat).
Proof.
  intros [props [Hprops Hlen]].
  vm_compute in Hprops.
  injection Hprops as <-. discriminate Hlen.
Qed.


(** No entry named [n] in a list built from segments that have none. *)
Lemma find_app_none {A} (f : A -> bool) (l1 l2 : list A) :
  find f l1 = None -> find f l2 = None -> find f (l1 ++ l2) = None.
Proof.
  intros H1 H2. induction l1 as [|a l1 IH]; simpl in *; [assumption|].
  destruct (f a); [discriminate | auto].
Qed.

Ltac segment :=
  lazymatch goal with
  | |- find _ (if ?b then _ else _) = None => destruct b; reflexivity
  | |- find _ [] = None => reflexivity
  end.

Ltac no_entry := repeat (apply find_app_none; [segment|]); segment.

(** C2.  After set_course_specs with par=0 the additionalProperty list has
    no entry named "Par"; with par=72 it has the entry named "Par" whose
    value is the string "72"; and for whatever arguments, a specs field
    whose value is falsy (0, the empty string, None) contributes no entry:
    none named after it is in the list. *)
Theorem falsy_specs_dropped :
  forall (self : GolfCourse.GolfCourseSchema)
         (par holes rating slope length_yards architect established : scalar),
    let output par :=
      item "additionalProperty"
        (result GolfCourse.to_json
           (after (GolfCourse.set_course_specs par holes rating slope
                     length_yards architect established) self)) in
    (exists props,
        output (PyInt 0) = Some (PyList props)
        /\ find_property "Par" (PyList props) = None)
    /\ (exists props,
        output (PyInt 72) = Some (PyList props)
        /\ find_property "Par" (PyList props)
           = Some (GolfCourse.property_value "Par" (Str "72")))
    /\ (exists props,
        output par = Some (PyList props)
        /\ (truthy par = false -> find_property "Par" (PyList props) = None)
        /\ (truthy holes = false ->
            find_property "Holes" (PyList props) = None)
        /\ (truthy length_yards = false ->
            find_property "Length" (PyList props) = None
            /\ find_property "Length Unit" (PyList props) = None)
        /\ (truthy rating = false ->
            find_property "Course Rating" (PyList props) = None)
        /\ (truthy slope = false ->
            find_property "Slope Rating" (PyList props) = None)
        /\ (truthy architect = false ->
            find_property "Course Architect" (PyList props) = None)
        /\ (truthy established = false ->
            find_property "Established" (PyList props) = None)).
Proof.
  intros self par holes rating slope length_yards architect established output.
  subst output. cbv beta.
  rewrite !additional_property_after_set_course_specs.
  rewrite !properties_after_set_course_specs.
  split; [|split]; eexists; (split; [reflexivity|]);
    unfold find_property.
  - change (truthy (PyInt 0)) with false. no_entry.
  - reflexivity.
  - repeat split; intros;
      repeat match goal with
        | H : truthy _ = false |- _ => rewrite H; clear H
        end;
      no_entry.
Qed.

Lemma falsy_specs_dropped_witness :
  exists props,
    item "additionalProperty"
      (result GolfCourse.to_json
         (after (GolfCourse.set_course_specs (PyStr "") (PyInt 0) (PyFloat 0)
                   PyNone PyNone (PyStr "") (PyBool false))
            pine_valley_demo))
    = Some (PyList props)
    /\ find_property "Par" (PyList props) = None
    /\ find_property "Holes" (PyList props) = None
    /\ find_property "Course Rating" (PyList props) = None.
Proof.
  destruct (falsy_specs_dropped pine_valley_demo (PyStr "") (PyInt 0)
              (PyFloat 0) PyNone PyNone (PyStr "") (PyBool false))
    as (_ & _ & props & Hout & Hpar & Hholes & _ & Hrating & _).
  exists props. split; [exact Hout|].
  split; [apply Hpar; reflexivity|].
  split; [apply Hholes; reflexivity|].
  apply Hrating. vm_compute. reflexivity.
Defined.

(** C4.  On a course built by the constructor and any chain of mutator
    calls, with [urls] the arguments of the add_image calls in call order:
    no add_image call leaves the "image" key out; exactly one makes "image"
    that single string; two or more make it the list of the URLs in
    insertion order. *)
Theorem image_field :
  forall (name url telephone email street_address city state
            postal_code : string) (latitude longitude : scalar)
         (cs : list GolfCourse.call),
    let self :=
      after (chain GolfCourse.do_call cs)
        (GolfCourse.init name url telephone email street_address city state
           postal_code latitude longitude) in
    let urls := GolfCourse.added_images cs in
    let image := item "image" (result GolfCourse.to_json self) in
    (urls = [] -> image = None)
    /\ (forall u, urls = [u] -> image = Some (Str u))
    /\ ((2 <= List.length urls)%nat -> image = Some (PyList (map Str urls))).
Proof.
  intros name url telephone email street_address city state postal_code
    latitude longitude cs self urls image.
  assert (Himages : GolfCourse.images self = urls).
  { unfold self. rewrite images_after_chain. reflexivity. }
  unfold image. rewrite to_json_image, Himages.
  repeat split.
  - intros ->. reflexivity.
  - intros u ->. reflexivity.
  - intros Hlen. destruct urls as [|u1 [|u2 urls']]; simpl in Hlen; try lia.
    reflexivity.
Qed.

Lemma image_field_witness :
  item "image"
    (result GolfCourse.to_json
       (after (chain GolfCourse.do_call
                 [ GolfCourse.AddImage "https://example.com/hero.jpg";
                   GolfCourse.AddAmenity "Pro Shop";
                   GolfCourse.AddImage "https://example.com/clubhouse.jpg" ])
          (GolfCourse.init "Pine Valley Golf Club" "https://example.com"
             "+1-609-465-3886" "reservations@pinevalley.com"
             "123 Fairway Drive" "Pine Valley" "NJ" "08021"
             (PyFloat 39.8093) (PyFloat (-74.8902)))))
  = Some (PyList [ Str "https://example.com/hero.jpg";
                   Str "https://example.com/clubhouse.jpg" ]).
Proof.
  apply (image_field "Pine Valley Golf Club" "https://example.com"
           "+1-609-465-3886" "reservations@pinevalley.com"
           "123 Fairway Drive" "Pine Valley" "NJ" "08021"
           (PyFloat 39.8093) (PyFloat (-74.8902))
           [ GolfCourse.AddImage "https://example.com/hero.jpg";
             GolfCourse.AddAmenity "Pro Shop";
             GolfCourse.AddImage "https://example.com/clubhouse.jpg" ]).
  simpl. lia.
Defined.

(** C8.  A second set_course_specs call replaces the stored specs with
    its own seven arguments, the optional ones included: the instance is
    the one the second call alone would leave, so to_json afterwards
    depends on the last call only. *)
Theorem set_course_specs_overwrites :
  forall (self : GolfCourse.GolfCourseSchema)
         (par1 holes1 rating1 slope1 length1 architect1 established1 : scalar)
         (par2 holes2 rating2 slope2 length2 architect2 established2 : scalar),
    let twice :=
      after (GolfCourse.set_course_specs par1 holes1 rating1 slope1
               length1 architect1 established1 ;;
             GolfCourse.set_course_specs par2 holes2 rating2 slope2
               length2 architect2 established2) self in
    let once :=
      after (GolfCourse.set_course_specs par2 holes2 rating2 slope2
               length2 architect2 established2) self in
    twice = once
    /\ GolfCourse.course_specs twice
       = [ ("par", par2); ("holes", holes2); ("rating", rating2);
           ("slope", slope2); ("length_yards", length2);
           ("architect", architect2); ("established", established2) ]
    /\ result GolfCourse.to_json twice = result GolfCourse.to_json once.
Proof.
  intros. assert (H : twice = once) by reflexivity.
  split; [exact H|]. split; [reflexivity|]. now rewrite H.
Qed.

(** C10.  When the last set_course_specs call had every argument falsy,
    to_json has the "additionalProperty" key, bound to the empty list; and
    on a course built by the constructor and a chain of mutator calls the
    key is absent exactly when the chain has no set_course_specs call. *)
Theorem additional_property_presence :
  (forall (self : GolfCourse.GolfCourseSchema)
          (par holes rating slope length_yards architect established : scalar)
          (cs : list GolfCourse.call),
      truthy par = false -> truthy holes = false -> truthy rating = false ->
      truthy slope = false -> truthy length_yards = false ->
      truthy architect = false -> truthy established = false ->
      existsb GolfCourse.is_set_course_specs cs = false ->
      item "additionalProperty"
        (result GolfCourse.to_json
           (after (GolfCourse.set_course_specs par holes rating slope
                     length_yards architect established ;;
                   chain GolfCourse.do_call cs) self))
      = Some (PyList []))
  /\ (forall (name url telephone email street_address city state
                postal_code : string) (latitude longitude : scalar)
             (cs : list GolfCourse.call),
      item "additionalProperty"
        (result GolfCourse.to_json
           (after (chain GolfCourse.do_call cs)
              (GolfCourse.init name url telephone email street_address city
                 state postal_code latitude longitude)))
      = None
      <-> existsb GolfCourse.is_set_course_specs cs = false).
Proof.
  split.
  - intros self par holes rating slope length_yards architect established cs
      Hp Hh Hr Hs Hl Ha He Hcs.
    rewrite after_bind, to_json_additional_property.
    rewrite course_specs_nonempty, Hcs, orb_false_r.
    set (self' := after (GolfCourse.set_course_specs par holes rating slope
                           length_yards architect established) self).
    change (nonempty (GolfCourse.course_specs self')) with true. cbv iota.
    rewrite (build_course_properties_specs _ self')
      by (apply course_specs_kept; exact Hcs).
    subst self'. rewrite properties_after_set_course_specs.
    now rewrite Hp, Hh, Hr, Hs, Hl, Ha, He.
  - intros. rewrite to_json_additional_property, course_specs_nonempty.
    simpl. destruct (existsb GolfCourse.is_set_course_specs cs);
      split; intros H; congruence.
Qed.

Lemma additional_property_presence_witness :
  item "additionalProperty"
    (result GolfCourse.to_json
       (after (GolfCourse.set_course_specs (PyInt 0) (PyInt 0) (PyInt 0)
                 (PyInt 0) PyNone PyNone PyNone ;;
               chain GolfCourse.do_call [GolfCourse.AddAmenity "Pro Shop"])
          pine_valley_demo))
  = Some (PyList []).
Proof.
  apply (proj1 additional_property_presence); reflexivity.
Defined.

(** ** ReviewSchema *)

Section ReviewFacts.
Import Review.

Lemma review_defaults_kept (cs : list call) (self : ReviewSchema) :
forallb is_add_review cs = true ->
rating_value (after (chain do_call cs) self) = rating_value self
/\ rating_count (after (chain do_call cs) self) = rating_count self.
Proof.
revert self. induction cs as [|c cs IH]; intros self Hcs; simpl in *.
- split; reflexivity.
- apply andb_prop in Hcs. destruct Hcs as [Hc Hcs].
  rewrite after_bind.
  destruct c; [|discriminate].
  destruct (IH (after (do_call (AddReview headline body rating
                                 date_published author_name)) self) Hcs)
    as [-> ->].
  split; reflexivity.
Qed.

Lemma to_json_aggregate (self : ReviewSchema) :
item "aggregateRating" (result to_json self)
= Some (PyDict
    [ ("@type", Str "AggregateRating");
      ("ratingValue", Str (str (rating_value self)));
      ("bestRating", Str "5");
      ("worstRating", Str "1");
      ("ratingCount", Atom (rating_count self));
      ("reviewCount", Int (len (reviews self))) ]).
Proof.
unfold result, to_json, bind, attr, ret; simpl.
destruct (nonempty (reviews self)); reflexivity.
Qed.
Lemma review_to_json_read_only : read_only to_json.
Proof. unfold to_json. read_only. Qed.
End ReviewFacts.

(** C6.  After the constructor, three add_review calls and
    set_aggregate_rating(4.9, 427), aggregateRating has reviewCount 3 and
    ratingCount 427.  The two are sourced independently: on every instance
    reviewCount is the length of the stored review list and ratingCount is
    the stored rating_count, and set_aggregate_rating changes the second
    and not the first. *)
Theorem review_count_and_rating_count :
  (forall (name url image : string)
          (h1 b1 : string) (r1 : scalar) (d1 a1 : string)
          (h2 b2 : string) (r2 : scalar) (d2 a2 : string)
          (h3 b3 : string) (r3 : scalar) (d3 a3 : string),
      let self :=
        after (Review.add_review h1 b1 r1 d1 a1 ;;
               Review.add_review h2 b2 r2 d2 a2 ;;
               Review.add_review h3 b3 r3 d3 a3 ;;
               Review.set_aggregate_rating (PyFloat 4.9) (PyInt 427))
          (Review.init name url image) in
      item2 "aggregateRating" "reviewCount" (result Review.to_json self)
      = Some (Int 3)
      /\ item2 "aggregateRating" "ratingCount" (result Review.to_json self)
         = Some (Int 427))
  /\ (forall self : Review.ReviewSchema,
      item2 "aggregateRating" "reviewCount" (result Review.to_json self)
      = Some (Int (len (Review.reviews self)))
      /\ item2 "aggregateRating" "ratingCount" (result Review.to_json self)
         = Some (Atom (Review.rating_count self)))
  /\ (forall (self : Review.ReviewSchema) (rating_value rating_count : scalar),
      let self' :=
        after (Review.set_aggregate_rating rating_value rating_count) self in
      item2 "aggregateRating" "reviewCount" (result Review.to_json self')
      = Some (Int (len (Review.reviews self)))
      /\ item2 "aggregateRating" "ratingCount" (result Review.to_json self')
         = Some (Atom rating_count)).
Proof.
  assert (Hany : forall self : Review.ReviewSchema,
      item2 "aggregateRating" "reviewCount" (result Review.to_json self)
      = Some (Int (len (Review.reviews self)))
      /\ item2 "aggregateRating" "ratingCount" (result Review.to_json self)
         = Some (Atom (Review.rating_count self))).
  { intros self. unfold item2. rewrite to_json_aggregate.
    split; reflexivity. }
  split; [|split].
  - intros. destruct (Hany self) as [-> ->]. split; reflexivity.
  - exact Hany.
  - intros. destruct (Hany self') as [-> ->]. split; reflexivity.
Qed.

(** C9.  A ReviewSchema on which set_aggregate_rating was never called
    (built by the constructor and any number of add_review calls) still
    emits an aggregateRating object; its ratingValue is the string "0", its
    ratingCount the number 0, its bestRating "5" and its worstRating "1". *)
Theorem aggregate_rating_defaults :
  forall (name url image : string) (cs : list Review.call),
    forallb Review.is_add_review cs = true ->
    let self := after (chain Review.do_call cs) (Review.init name url image) in
    exists agg,
      item "aggregateRating" (result Review.to_json self) = Some agg
      /\ item "ratingValue" agg = Some (Str "0")
      /\ item "ratingCount" agg = Some (Int 0)
      /\ item "bestRating" agg = Some (Str "5")
      /\ item "worstRating" agg = Some (Str "1").
Proof.
  intros name url image cs Hcs self.
  destruct (review_defaults_kept cs (Review.init name url image) Hcs)
    as [Hv Hc].
  eexists. split; [apply to_json_aggregate|].
  fold self in Hv, Hc. rewrite Hv, Hc. simpl.
  repeat split; reflexivity.
Qed.

Lemma aggregate_rating_defaults_witness :
  exists agg,
    item "aggregateRating"
      (result Review.to_json
         (after (chain Review.do_call
                   [Review.AddReview "Great" "Loved it" (PyInt 5)
                      "2026-01-05" "Ann"])
            (Review.init "Pine Valley" "https://x" "https://x/i.jpg")))
    = Some agg
    /\ item "ratingValue" agg = Some (Str "0")
    /\ item "ratingCount" agg = Some (Int 0)
    /\ item "bestRating" agg = Some (Str "5")
    /\ item "worstRating" agg = Some (Str "1").
Proof.
  apply (aggregate_rating_defaults "Pine Valley" "https://x" "https://x/i.jpg"
           [Review.AddReview "Great" "Loved it" (PyInt 5) "2026-01-05" "Ann"]).
  reflexivity.
Defined.

(** ** BreadcrumbSchema *)

Section BreadcrumbFacts.
Import Breadcrumb.

(** What one [add_item] call does to the stored list. *)
Lemma items_after_add_item (self : BreadcrumbSchema) (name : string)
    (url : scalar) :
  exists it,
    items (after (add_item name url) self) = (items self ++ [it])%list
    /\ item "@type" it = Some (Str "ListItem")
    /\ item "position" it = Some (Int (len (items self) + 1))
    /\ item "name" it = Some (Str name)
    /\ item "item" it = (if truthy url then Some (Atom url) else None).
Proof.
  unfold add_item. rewrite after_bind. cbv zeta.
  eexists. split; [reflexivity|].
  destruct (truthy url); repeat split; reflexivity.
Qed.

Lemma items_length_after_chain (cs : list call) (self : BreadcrumbSchema) :
  List.length (items (after (chain do_call cs) self))
  = (List.length (items self) + List.length cs)%nat.
Proof.
  revert self. induction cs as [|[name url] cs IH]; intros self.
  - simpl. now rewrite Nat.add_0_r.
  - rewrite chain_cons, IH.
    destruct (items_after_add_item self name url) as (it & Hit & _).
    unfold do_call; simpl fst; simpl snd. rewrite Hit, length_app. simpl. lia.
Qed.

(** The [i]-th call of a chain on a fresh instance stores the [i]-th item,
    numbered [i + 1]. *)
Lemma items_after_chain (cs : list call) :
  forall (i : nat) (name : string) (url : scalar),
    nth_error cs i = Some (name, url) ->
    exists it,
      nth_error (items (after (chain do_call cs) init)) i = Some it
      /\ item "position" it = Some (Int (Z.of_nat i + 1))
      /\ item "name" it = Some (Str name)
      /\ item "item" it = (if truthy url then Some (Atom url) else None).
Proof.
  induction cs as [|[name' url'] cs IH] using rev_ind; intros i name url Hi.
  - destruct i; discriminate.
  - rewrite chain_snoc.
    set (prev := after (chain do_call cs) init) in *.
    assert (Hlen : List.length (items prev) = List.length cs).
    { unfold prev. rewrite items_length_after_chain. reflexivity. }
    destruct (items_after_add_item prev name' url')
      as (it & Hit & _ & Hpos & Hname & Hurl).
    unfold do_call; simpl fst; simpl snd. rewrite Hit.
    destruct (Nat.lt_ge_cases i (List.length cs)) as [Hlt | Hge].
    + rewrite nth_error_app1 in Hi by assumption.
      rewrite nth_error_app1 by (rewrite Hlen; assumption).
      apply IH. exact Hi.
    + rewrite nth_error_app2 in Hi by assumption.
      rewrite nth_error_app2 by (rewrite Hlen; assumption).
      rewrite Hlen.
      destruct (i - List.length cs)%nat as [|j] eqn:Hj;
        [| destruct j; discriminate ].
      simpl in Hi. injection Hi as -> ->.
      exists it. split; [reflexivity|].
      assert (i = List.length cs) as -> by lia.
      unfold len in Hpos. rewrite Hlen in Hpos. auto.
Qed.

Lemma breadcrumb_to_json_items (self : BreadcrumbSchema) :
  item "itemListElement" (result to_json self) = Some (PyList (items self)).
Proof. reflexivity. Qed.

Lemma breadcrumb_to_json_read_only : read_only to_json.
Proof. unfold to_json. read_only. Qed.

End BreadcrumbFacts.

(** C5.  On a fresh BreadcrumbSchema, add_item("Home", "https://x") then
    add_item("Courses") give an itemListElement of two items, positions 1
    and 2 in insertion order, the second without an "item" key.  In
    general the item a call stores carries the stored-item count plus one
    at the time of the call, which on a fresh instance is the call's
    1-based index in the chain. *)
Theorem breadcrumb_positions :
  item "itemListElement"
    (result Breadcrumb.to_json
       (after (Breadcrumb.add_item "Home" (PyStr "https://x") ;;
               Breadcrumb.add_item "Courses" PyNone)
          Breadcrumb.init))
  = Some (PyList
      [ PyDict [ ("@type", Str "ListItem"); ("position", Int 1);
                 ("name", Str "Home"); ("item", Str "https://x") ];
        PyDict [ ("@type", Str "ListItem"); ("position", Int 2);
                 ("name", Str "Courses") ] ])
  /\ (forall (self : Breadcrumb.BreadcrumbSchema) (name : string)
             (url : scalar),
      exists it,
        Breadcrumb.items (after (Breadcrumb.add_item name url) self)
        = (Breadcrumb.items self ++ [it])%list
        /\ item "position" it
           = Some (Int (len (Breadcrumb.items self) + 1)))
  /\ (forall (cs : list Breadcrumb.call) (i : nat) (name : string)
             (url : scalar),
      nth_error cs i = Some (name, url) ->
      exists it,
        item "itemListElement"
          (result Breadcrumb.to_json
             (after (chain Breadcrumb.do_call cs) Breadcrumb.init))
        = Some (PyList
                  (Breadcrumb.items
                     (after (chain Breadcrumb.do_call cs) Breadcrumb.init)))
        /\ index i
             (PyList (Breadcrumb.items
                        (after (chain Breadcrumb.do_call cs) Breadcrumb.init)))
           = Some it
        /\ item "position" it = Some (Int (Z.of_nat i + 1))
        /\ item "name" it = Some (Str name)
        /\ item "item" it = (if truthy url then Some (Atom url) else None)).
Proof.
  split; [reflexivity|]. split.
  - intros self name url.
    destruct (items_after_add_item self name url) as (it & Hit & _ & Hpos & _).
    exists it. split; assumption.
  - intros cs i name url Hi.
    destruct (items_after_chain cs i name url Hi) as (it & Hnth & Hrest).
    exists it. split; [apply breadcrumb_to_json_items|].
    split; assumption.
Qed.

Lemma breadcrumb_positions_witness :
  exists it,
    index 1
      (PyList (Breadcrumb.items
                 (after (chain Breadcrumb.do_call
                           [ ("Home", PyStr "https://x"); ("Courses", PyNone) ])
                    Breadcrumb.init)))
    = Some it
    /\ item "position" it = Some (Int 2)
    /\ item "name" it = Some (Str "Courses")
    /\ item "item" it = None.
Proof.
  destruct (proj2 (proj2 breadcrumb_positions)
              [ ("Home", PyStr "https://x"); ("Courses", PyNone) ]
              1%nat "Courses" PyNone eq_refl)
    as (it & _ & Hnth & Hpos & Hname & Hitem).
  exists it. repeat split; assumption.
Defined.

(** ** TeeTimeEventSchema *)

Section TeeTimeEventFacts.
Import TeeTimeEvent.

Lemma to_json_availability (self : TeeTimeEventSchema) :
  item2 "offers" "availability" (result to_json self)
  = Some (Str ("https://schema.org/" ++ availability self)).
Proof. reflexivity. Qed.

Lemma tee_time_to_json_read_only : read_only to_json.
Proof. unfold to_json. read_only. Qed.

End TeeTimeEventFacts.

(** C7.  After set_availability(s), for any string s, offers.availability
    is "https://schema.org/" followed by s; so "OutOfStock" gives
    "https://schema.org/OutOfStock", and a string outside the three
    documented states goes through the same way. *)
Theorem availability_uri :
  forall (self : TeeTimeEvent.TeeTimeEventSchema),
    (forall s : string,
        item2 "offers" "availability"
          (result TeeTimeEvent.to_json
             (after (TeeTimeEvent.set_availability s) self))
        = Some (Str ("https://schema.org/" ++ s)))
    /\ item2 "offers" "availability"
         (result TeeTimeEvent.to_json
            (after (TeeTimeEvent.set_availability "OutOfStock") self))
       = Some (Str "https://schema.org/OutOfStock")
    /\ item2 "offers" "availability"
         (result TeeTimeEvent.to_json
            (after (TeeTimeEvent.set_availability "sold out!") self))
       = Some (Str "https://schema.org/sold out!").
Proof.
  intros self. repeat split; intros; rewrite to_json_availability; reflexivity.
Qed.

(** C3.  For each of the four builders, in any state: to_json called
    twice in a row, with no mutator call in between, returns equal values,
    and to_json leaves every attribute of the instance as it was. *)
Theorem to_json_repeatable :
  repeatable GolfCourse.to_json
  /\ repeatable Review.to_json
  /\ repeatable Breadcrumb.to_json
  /\ repeatable TeeTimeEvent.to_json.
Proof.
  split; [|split; [|split]]; apply read_only_repeatable.
  - apply golf_course_to_json_read_only.
  - apply review_to_json_read_only.
  - apply breadcrumb_to_json_read_only.
  - apply tee_time_to_json_read_only.
Qed.

(* ===================================================================== *)
(** * Further properties of the builders *)
(* ===================================================================== *)

(** ** GolfCourseSchema: what a chain of calls stores *)

Section GolfCourseStored.
Import GolfCourse.

Lemma golf_course_ext (s1 s2 : GolfCourseSchema) :
  name s1 = name s2 -> url s1 = url s2 -> telephone s1 = telephone s2 ->
  email s1 = email s2 -> street_address s1 = street_address s2 ->
  city s1 = city s2 -> state s1 = state s2 ->
  postal_code s1 = postal_code s2 -> latitude s1 = latitude s2 ->
  longitude s1 = longitude s2 -> images s1 = images s2 ->
  opening_hours s1 = opening_hours s2 -> amenities s1 = amenities s2 ->
  course_specs s1 = course_specs s2 ->
  social_profiles s1 = social_profiles s2 ->
  s1 = s2.
Proof. destruct s1, s2; simpl; intros; subst; reflexivity. Qed.

(** No mutator writes an attribute the constructor's arguments set. *)
Lemma identity_kept (cs : list call) (self : GolfCourseSchema) :
  let self' := after (chain do_call cs) self in
  name self' = name self /\ url self' = url self
  /\ telephone self' = telephone self /\ email self' = email self
  /\ street_address self' = street_address self /\ city self' = city self
  /\ state self' = state self /\ postal_code self' = postal_code self
  /\ latitude self' = latitude self /\ longitude self' = longitude self.
Proof.
  revert self. induction cs as [|c cs IH]; intros self; cbv zeta.
  - repeat split; reflexivity.
  - rewrite chain_cons.
    destruct (IH (after (do_call c) self))
      as (-> & -> & -> & -> & -> & -> & -> & -> & -> & ->).
    destruct c; repeat split; reflexivity.
Qed.

Lemma amenities_after_chain (cs : list call) (self : GolfCourseSchema) :
  amenities (after (chain do_call cs) self)
  = (amenities self ++ added_amenities cs)%list.
Proof.
  revert self. induction cs as [|c cs IH]; intros self.
  - simpl. now rewrite app_nil_r.
  - rewrite chain_cons, IH. destruct c; simpl; try reflexivity.
    now rewrite <- app_assoc.
Qed.

Lemma social_profiles_after_chain (cs : list call) (self : GolfCourseSchema) :
  social_profiles (after (chain do_call cs) self)
  = (social_profiles self ++ added_social_profiles cs)%list.
Proof.
  revert self. induction cs as [|c cs IH]; intros self.
  - simpl. now rewrite app_nil_r.
  - rewrite chain_cons, IH. destruct c; simpl; try reflexivity.
    now rewrite <- app_assoc.
Qed.

Lemma opening_hours_after_chain (cs : list call) (self : GolfCourseSchema) :
  opening_hours (after (chain do_call cs) self)
  = (opening_hours self
     ++ map (fun '(days, opens, closes) =>
               PyDict [ ("@type", Str "OpeningHoursSpecification");
                        ("dayOfWeek", PyList (map Str days));
                        ("opens", Str opens);
                        ("closes", Str closes) ])
          (added_opening_hours cs))%list.
Proof.
  revert self. induction cs as [|c cs IH]; intros self.
  - simpl. now rewrite app_nil_r.
  - rewrite chain_cons, IH. destruct c; simpl; try reflexivity.
    now rewrite <- app_assoc.
Qed.

(** The specs dict is the one the last [set_course_specs] call of the
    chain wrote, or the one the chain started from. *)
Lemma course_specs_after_chain (cs : list call) (self : GolfCourseSchema) :
  course_specs (after (chain do_call cs) self)
  = match last_course_specs cs with
    | Some c => course_specs (after (do_call c) self)
    | None => course_specs self
    end.
Proof.
  revert self. induction cs as [|c cs IH]; intros self.
  - reflexivity.
  - rewrite chain_cons, IH. simpl.
    destruct (last_course_specs cs) as [c'|] eqn:Hlast.
    + assert (Hc' : is_set_course_specs c' = true).
      { clear - Hlast. revert c' Hlast.
        induction cs as [|c0 cs IH]; intros c' Hlast; [discriminate|].
        simpl in Hlast. destruct (last_course_specs cs) as [c1|].
        - injection Hlast as <-. now apply IH.
        - destruct (is_set_course_specs c0) eqn:E; [|discriminate].
          now injection Hlast as <-. }
      destruct c'; try discriminate. reflexivity.
    + destruct c; reflexivity.
Qed.

End GolfCourseStored.

(** X1.  The instance a chain of mutator calls leaves depends only on the
    calls of each mutator taken in order, and for set_course_specs on its
    last call: two chains that agree on these, however their calls are
    interleaved, leave the same instance and so the same to_json. *)
Theorem golf_course_calls_interleave :
  forall (cs1 cs2 : list GolfCourse.call) (self : GolfCourse.GolfCourseSchema),
    GolfCourse.added_images cs1 = GolfCourse.added_images cs2 ->
    GolfCourse.added_opening_hours cs1 = GolfCourse.added_opening_hours cs2 ->
    GolfCourse.added_amenities cs1 = GolfCourse.added_amenities cs2 ->
    GolfCourse.last_course_specs cs1 = GolfCourse.last_course_specs cs2 ->
    GolfCourse.added_social_profiles cs1
    = GolfCourse.added_social_profiles cs2 ->
    after (chain GolfCourse.do_call cs1) self
    = after (chain GolfCourse.do_call cs2) self
    /\ result GolfCourse.to_json (after (chain GolfCourse.do_call cs1) self)
       = result GolfCourse.to_json (after (chain GolfCourse.do_call cs2) self).
Proof.
  intros cs1 cs2 self Hi Hh Ha Hs Hp.
  assert (H : after (chain GolfCourse.do_call cs1) self
              = after (chain GolfCourse.do_call cs2) self).
  { destruct (identity_kept cs1 self)
      as (E1 & E2 & E3 & E4 & E5 & E6 & E7 & E8 & E9 & E10).
    destruct (identity_kept cs2 self)
      as (F1 & F2 & F3 & F4 & F5 & F6 & F7 & F8 & F9 & F10).
    apply golf_course_ext; try congruence.
    - now rewrite !images_after_chain, Hi.
    - now rewrite !opening_hours_after_chain, Hh.
    - now rewrite !amenities_after_chain, Ha.
    - now rewrite !course_specs_after_chain, Hs.
    - now rewrite !social_profiles_after_chain, Hp. }
  split; [exact H | now rewrite H].
Qed.

Lemma golf_course_calls_interleave_witness :
  after (chain GolfCourse.do_call
           [ GolfCourse.AddImage "https://example.com/hero.jpg";
             GolfCourse.AddAmenity "Restaurant & Bar";
             GolfCourse.AddSocialProfile "https://twitter.com/pinevalley" ])
    pine_valley_demo
  = after (chain GolfCourse.do_call
             [ GolfCourse.AddSocialProfile "https://twitter.com/pinevalley";
               GolfCourse.AddAmenity "Restaurant & Bar";
               GolfCourse.AddImage "https://example.com/hero.jpg" ])
      pine_valley_demo.
Proof.
  apply (golf_course_calls_interleave
           [ GolfCourse.AddImage "https://example.com/hero.jpg";
             GolfCourse.AddAmenity "Restaurant & Bar";
             GolfCourse.AddSocialProfile "https://twitter.com/pinevalley" ]
           [ GolfCourse.AddSocialProfile "https://twitter.com/pinevalley";
             GolfCourse.AddAmenity "Restaurant & Bar";
             GolfCourse.AddImage "https://example.com/hero.jpg" ]
           pine_valley_demo); reflexivity.
Defined.

(** ** GolfCourseSchema: the optional and the required keys *)

Section GolfCourseKeys.
Import GolfCourse.

Ltac by_stored_lists self :=
  destruct self as [n u t e sa c st pc la lo imgs hours ams specs socs];
  unfold result, to_json, build_address, build_geo, build_amenities,
    bind, attr, ret;
  cbn [fst snd images opening_hours amenities course_specs social_profiles
       GolfCourse.name GolfCourse.url telephone email street_address city
       state postal_code latitude longitude];
  destruct imgs as [|? [|? ?]], hours, ams, specs, socs; reflexivity.

Lemma to_json_amenity_feature (self : GolfCourseSchema) :
  item "amenityFeature" (result to_json self)
  = if nonempty (amenities self)
    then Some (result build_amenities self)
    else None.
Proof. by_stored_lists self. Qed.

Lemma to_json_same_as (self : GolfCourseSchema) :
  item "sameAs" (result to_json self)
  = if nonempty (social_profiles self)
    then Some (PyList (map Str (social_profiles self)))
    else None.
Proof. by_stored_lists self. Qed.

Lemma to_json_opening_hours (self : GolfCourseSchema) :
  item "openingHoursSpecification" (result to_json self)
  = if nonempty (opening_hours self)
    then Some (PyList (opening_hours self))
    else None.
Proof. by_stored_lists self. Qed.

Lemma to_json_required (self : GolfCourseSchema) :
  item "@context" (result to_json self) = Some (Str "https://schema.org")
  /\ item "@type" (result to_json self)
     = Some (PyList [Str "LocalBusiness"; Str "GolfCourse"])
  /\ item "name" (result to_json self) = Some (Str (name self))
  /\ item "url" (result to_json self) = Some (Str (url self))
  /\ item "telephone" (result to_json self) = Some (Str (telephone self))
  /\ item "email" (result to_json self) = Some (Str (email self))
  /\ item "address" (result to_json self) = Some (result build_address self)
  /\ item "geo" (result to_json self) = Some (result build_geo self).
Proof. repeat split; by_stored_lists self. Qed.

Lemma to_json_keys (self : GolfCourseSchema) :
  keys (result to_json self)
  = ([ "@context"; "@type"; "name"; "url"; "telephone"; "email";
       "address"; "geo" ]
     ++ (if nonempty (images self) then ["image"] else [])
     ++ (if nonempty (opening_hours self)
         then ["openingHoursSpecification"] else [])
     ++ (if nonempty (amenities self) then ["amenityFeature"] else [])
     ++ (if nonempty (course_specs self) then ["additionalProperty"] else [])
     ++ (if nonempty (social_profiles self) then ["sameAs"] else []))%list.
Proof. by_stored_lists self. Qed.

End GolfCourseKeys.

(** X2.  On a course built by the constructor and any chain of calls,
    "amenityFeature" is absent when add_amenity was never called, and is
    otherwise the list of one LocationFeatureSpecification object per
    add_amenity call, in call order; a name added twice appears twice. *)
Theorem amenity_feature_field :
  forall (name url telephone email street_address city state
            postal_code : string) (latitude longitude : scalar)
         (cs : list GolfCourse.call),
    item "amenityFeature"
      (result GolfCourse.to_json
         (after (chain GolfCourse.do_call cs)
            (GolfCourse.init name url telephone email street_address city
               state postal_code latitude longitude)))
    = match GolfCourse.added_amenities cs with
      | [] => None
      | amenities =>
          Some (PyList
                  (map (fun amenity =>
                          PyDict
                            [ ("@type", Str "LocationFeatureSpecification");
                              ("name", Str amenity) ])
                       amenities))
      end.
Proof.
  intros. rewrite to_json_amenity_feature.
  unfold result, GolfCourse.build_amenities, bind, attr, ret. simpl fst.
  rewrite amenities_after_chain. simpl app.
  destruct (GolfCourse.added_amenities cs); reflexivity.
Qed.

(** X3.  "sameAs" is absent when add_social_profile was never called, and
    is otherwise the list of the added URLs in call order; unlike "image",
    a single URL still comes as a one-element list. *)
Theorem same_as_field :
  forall (name url telephone email street_address city state
            postal_code : string) (latitude longitude : scalar)
         (cs : list GolfCourse.call),
    let same_as :=
      item "sameAs"
        (result GolfCourse.to_json
           (after (chain GolfCourse.do_call cs)
              (GolfCourse.init name url telephone email street_address city
                 state postal_code latitude longitude))) in
    same_as
    = match GolfCourse.added_social_profiles cs with
      | [] => None
      | profiles => Some (PyList (map Str profiles))
      end
    /\ (forall u, GolfCourse.added_social_profiles cs = [u] ->
        same_as = Some (PyList [Str u])).
Proof.
  intros. subst same_as. rewrite to_json_same_as.
  rewrite social_profiles_after_chain. simpl app.
  split.
  - destruct (GolfCourse.added_social_profiles cs); reflexivity.
  - intros u ->. reflexivity.
Qed.

Lemma same_as_field_witness :
  item "sameAs"
    (result GolfCourse.to_json
       (after (chain GolfCourse.do_call
                 [GolfCourse.AddSocialProfile "https://twitter.com/pinevalley"])
          (GolfCourse.init "Pine Valley Golf Club" "https://example.com"
             "+1-609-465-3886" "reservations@pinevalley.com"
             "123 Fairway Drive" "Pine Valley" "NJ" "08021"
             (PyFloat 39.8093) (PyFloat (-74.8902)))))
  = Some (PyList [Str "https://twitter.com/pinevalley"]).
Proof.
  apply (same_as_field "Pine Valley Golf Club" "https://example.com"
           "+1-609-465-3886" "reservations@pinevalley.com"
           "123 Fairway Drive" "Pine Valley" "NJ" "08021"
           (PyFloat 39.8093) (PyFloat (-74.8902))
           [GolfCourse.AddSocialProfile "https://twitter.com/pinevalley"]).
  reflexivity.
Defined.

(** X4.  "openingHoursSpecification" is absent when add_opening_hours was
    never called, and is otherwise the list of one
    OpeningHoursSpecification object per call, in call order, each with
    the call's days, opening and closing time as given (no check that it
    opens before it closes). *)
Theorem opening_hours_field :
  forall (name url telephone email street_address city state
            postal_code : string) (latitude longitude : scalar)
         (cs : list GolfCourse.call),
    item "openingHoursSpecification"
      (result GolfCourse.to_json
         (after (chain GolfCourse.do_call cs)
            (GolfCourse.init name url telephone email street_address city
               state postal_code latitude longitude)))
    = match GolfCourse.added_opening_hours cs with
      | [] => None
      | rules =>
          Some (PyList
                  (map (fun '(days, opens, closes) =>
                          PyDict
                            [ ("@type", Str "OpeningHoursSpecification");
                              ("dayOfWeek", PyList (map Str days));
                              ("opens", Str opens);
                              ("closes", Str closes) ])
                       rules))
      end.
Proof.
  intros. rewrite to_json_opening_hours, opening_hours_after_chain.
  simpl app. destruct (GolfCourse.added_opening_hours cs); reflexivity.
Qed.

(** X5.  Whatever mutators are called, to_json carries the constructor's
    name, url, telephone and email, an address object made of the
    constructor's street, city, state and postal code with country "US",
    and a geo object with the constructor's latitude and longitude: these
    keys are always present and no mutator changes them. *)
Theorem golf_course_required_fields :
  forall (name url telephone email street_address city state
            postal_code : string) (latitude longitude : scalar)
         (cs : list GolfCourse.call),
    let out :=
      result GolfCourse.to_json
        (after (chain GolfCourse.do_call cs)
           (GolfCourse.init name url telephone email street_address city
              state postal_code latitude longitude)) in
    item "name" out = Some (Str name)
    /\ item "url" out = Some (Str url)
    /\ item "telephone" out = Some (Str telephone)
    /\ item "email" out = Some (Str email)
    /\ item "address" out
       = Some (PyDict [ ("@type", Str "PostalAddress");
                        ("streetAddress", Str street_address);
                        ("addressLocality", Str city);
                        ("addressRegion", Str state);
                        ("postalCode", Str postal_code);
                        ("addressCountry", Str "US") ])
    /\ item "geo" out
       = Some (PyDict [ ("@type", Str "GeoCoordinates");
                        ("latitude", Atom latitude);
                        ("longitude", Atom longitude) ]).
Proof.
  intros. subst out.
  set (start := GolfCourse.init _ _ _ _ _ _ _ _ _ _).
  destruct (to_json_required (after (chain GolfCourse.do_call cs) start))
    as (_ & _ & -> & -> & -> & -> & -> & ->).
  unfold result, GolfCourse.build_address, GolfCourse.build_geo,
    bind, attr, ret. simpl fst.
  destruct (identity_kept cs start)
    as (-> & -> & -> & -> & -> & -> & -> & -> & -> & ->).
  repeat split; reflexivity.
Qed.

(** X6.  The keys of a course's to_json come in one fixed order whatever
    the order of the calls: the eight required keys, then, each only when
    its stored list or dict is non-empty, image, openingHoursSpecification,
    amenityFeature, additionalProperty and sameAs. *)
Theorem golf_course_key_order :
  forall self : GolfCourse.GolfCourseSchema,
    keys (result GolfCourse.to_json self)
    = ([ "@context"; "@type"; "name"; "url"; "telephone"; "email";
         "address"; "geo" ]
       ++ filter
            (fun k =>
               match item k (result GolfCourse.to_json self) with
               | Some _ => true
               | None => false
               end)
            [ "image"; "openingHoursSpecification"; "amenityFeature";
              "additionalProperty"; "sameAs" ])%list
    /\ (item "image" (result GolfCourse.to_json self) = None
        <-> GolfCourse.images self = [])
    /\ (item "openingHoursSpecification" (result GolfCourse.to_json self)
        = None <-> GolfCourse.opening_hours self = [])
    /\ (item "amenityFeature" (result GolfCourse.to_json self) = None
        <-> GolfCourse.amenities self = [])
    /\ (item "additionalProperty" (result GolfCourse.to_json self) = None
        <-> GolfCourse.course_specs self = [])
    /\ (item "sameAs" (result GolfCourse.to_json self) = None
        <-> GolfCourse.social_profiles self = []).
Proof.
  intros self. rewrite to_json_keys. cbn [filter].
  rewrite to_json_image, to_json_opening_hours, to_json_amenity_feature,
    to_json_additional_property, to_json_same_as.
  destruct (GolfCourse.images self) as [|? [|? ?]],
    (GolfCourse.opening_hours self), (GolfCourse.amenities self),
    (GolfCourse.course_specs self), (GolfCourse.social_profiles self);
    cbn [nonempty];
    (split; [reflexivity|]); repeat split; intros; congruence.
Qed.

(** ** GolfCourseSchema: the entries of additionalProperty *)

Lemma find_app_skip {A} (f : A -> bool) (l1 l2 : list A) :
  find f l1 = None -> find f (l1 ++ l2) = find f l2.
Proof.
  intros H1. induction l1 as [|a l1 IH]; simpl in *; [reflexivity|].
  destruct (f a); [discriminate | auto].
Qed.

Ltac entry_found :=
  repeat match goal with
    | H : truthy _ = true |- _ => rewrite H; clear H
    end;
  repeat (rewrite find_app_skip by segment);
  reflexivity.

(** X7.  After set_course_specs, every specs field whose value is truthy
    has its entry in additionalProperty: the value is str() of what was
    passed, except for Course Architect, whose value is passed through as
    it is, and a truthy length_yards gives both Length and the fixed
    Length Unit "yards". *)
Theorem truthy_specs_emitted :
  forall (self : GolfCourse.GolfCourseSchema)
         (par holes rating slope length_yards architect established : scalar),
  exists props,
    item "additionalProperty"
      (result GolfCourse.to_json
         (after (GolfCourse.set_course_specs par holes rating slope
                   length_yards architect established) self))
    = Some (PyList props)
    /\ (truthy par = true ->
        find_property "Par" (PyList props)
        = Some (GolfCourse.property_value "Par" (Str (str par))))
    /\ (truthy holes = true ->
        find_property "Holes" (PyList props)
        = Some (GolfCourse.property_value "Holes" (Str (str holes))))
    /\ (truthy length_yards = true ->
        find_property "Length" (PyList props)
        = Some (GolfCourse.property_value "Length" (Str (str length_yards)))
        /\ find_property "Length Unit" (PyList props)
           = Some (GolfCourse.property_value "Length Unit" (Str "yards")))
    /\ (truthy rating = true ->
        find_property "Course Rating" (PyList props)
        = Some (GolfCourse.property_value "Course Rating" (Str (str rating))))
    /\ (truthy slope = true ->
        find_property "Slope Rating" (PyList props)
        = Some (GolfCourse.property_value "Slope Rating" (Str (str slope))))
    /\ (truthy architect = true ->
        find_property "Course Architect" (PyList props)
        = Some (GolfCourse.property_value "Course Architect" (Atom architect)))
    /\ (truthy established = true ->
        find_property "Established" (PyList props)
        = Some (GolfCourse.property_value "Established"
                  (Str (str established)))).
Proof.
  intros.
  rewrite additional_property_after_set_course_specs.
  rewrite properties_after_set_course_specs.
  eexists. split; [reflexivity|]. unfold find_property.
  repeat split; intros; entry_found.
Qed.

Lemma truthy_specs_emitted_witness :
  exists props,
    item "additionalProperty"
      (result GolfCourse.to_json
         (after (GolfCourse.set_course_specs (PyInt 72) (PyInt 18)
                   (PyFloat 76.5) (PyInt 147) PyNone (PyInt 7) PyNone)
            pine_valley_demo))
    = Some (PyList props)
    /\ find_property "Course Rating" (PyList props)
       = Some (GolfCourse.property_value "Course Rating" (Str "76.5"))
    /\ find_property "Course Architect" (PyList props)
       = Some (GolfCourse.property_value "Course Architect" (Int 7)).
Proof.
  destruct (truthy_specs_emitted pine_valley_demo (PyInt 72) (PyInt 18)
              (PyFloat 76.5) (PyInt 147) PyNone (PyInt 7) PyNone)
    as (props & Hout & _ & _ & _ & Hrating & _ & Harchitect & _).
  exists props. split; [exact Hout|]. split.
  - rewrite Hrating by (vm_compute; reflexivity).
    vm_compute. reflexivity.
  - apply Harchitect. reflexivity.
Defined.

(** X8.  Whatever the arguments of set_course_specs, the entries of
    additionalProperty are named, in this order and each at most once, by
    those of Par, Holes, Length, Length Unit, Course Rating, Slope Rating,
    Course Architect, Established that are present; so there are at most
    eight. *)
Theorem additional_property_order :
  forall (self : GolfCourse.GolfCourseSchema)
         (par holes rating slope length_yards architect established : scalar),
  exists props,
    item "additionalProperty"
      (result GolfCourse.to_json
         (after (GolfCourse.set_course_specs par holes rating slope
                   length_yards architect established) self))
    = Some (PyList props)
    /\ map entry_name props
       = map Some
           (filter (has_property (PyList props))
              [ "Par"; "Holes"; "Length"; "Length Unit"; "Course Rating";
                "Slope Rating"; "Course Architect"; "Established" ])
    /\ (List.length props <= 8)%nat.
Proof.
  intros.
  rewrite additional_property_after_set_course_specs.
  rewrite properties_after_set_course_specs.
  eexists. split; [reflexivity|].
  destruct (truthy par), (truthy holes), (truthy length_yards),
    (truthy rating), (truthy slope), (truthy architect),
    (truthy established);
    (split; [reflexivity | simpl; lia]).
Qed.

(** X9.  build_course_properties called on a course whose specs were
    never set returns the empty list: each missing key reads as None. *)
Theorem build_course_properties_unset :
  forall (name url telephone email street_address city state
            postal_code : string) (latitude longitude : scalar)
         (cs : list GolfCourse.call),
    existsb GolfCourse.is_set_course_specs cs = false ->
    result GolfCourse.build_course_properties
      (after (chain GolfCourse.do_call cs)
         (GolfCourse.init name url telephone email street_address city
            state postal_code latitude longitude))
    = PyList [].
Proof.
  intros name url telephone email street_address city state postal_code
    latitude longitude cs Hcs.
  set (start := GolfCourse.init _ _ _ _ _ _ _ _ _ _).
  rewrite (build_course_properties_specs _ start)
    by (apply course_specs_kept; exact Hcs).
  reflexivity.
Qed.

Lemma build_course_properties_unset_witness :
  result GolfCourse.build_course_properties
    (after (chain GolfCourse.do_call
              [ GolfCourse.AddImage "https://example.com/hero.jpg";
                GolfCourse.AddAmenity "Pro Shop" ])
       (GolfCourse.init "Pine Valley Golf Club" "https://example.com"
          "+1-609-465-3886" "reservations@pinevalley.com"
          "123 Fairway Drive" "Pine Valley" "NJ" "08021"
          (PyFloat 39.8093) (PyFloat (-74.8902))))
  = PyList [].
Proof.
  apply (build_course_properties_unset "Pine Valley Golf Club"
           "https://example.com" "+1-609-465-3886"
           "reservations@pinevalley.com" "123 Fairway Drive" "Pine Valley"
           "NJ" "08021" (PyFloat 39.8093) (PyFloat (-74.8902))
           [ GolfCourse.AddImage "https://example.com/hero.jpg";
             GolfCourse.AddAmenity "Pro Shop" ]).
  reflexivity.
Defined.

(** ** ReviewSchema: the review list and the aggregate *)

Section ReviewStored.
Import Review.

Lemma reviews_after_chain (cs : list call) (self : ReviewSchema) :
  reviews (after (chain do_call cs) self)
  = (reviews self
     ++ map (fun '(headline, body, rating, date_published, author_name) =>
               PyDict
                 [ ("@type", Str "Review");
                   ("headline", Str headline);
                   ("reviewBody", Str body);
                   ("reviewRating", PyDict
                      [ ("@type", Str "Rating");
                        ("ratingValue", Str (str rating));
                        ("bestRating", Str "5");
                        ("worstRating", Str "1") ]);
                   ("datePublished", Str date_published);
                   ("author", PyDict
                      [ ("@type", Str "Person");
                        ("name", Str author_name) ]) ])
          (added_reviews cs))%list.
Proof.
  revert self. induction cs as [|c cs IH]; intros self.
  - simpl. now rewrite app_nil_r.
  - rewrite chain_cons, IH. destruct c; simpl; try reflexivity.
    now rewrite <- app_assoc.
Qed.

Lemma review_identity_kept (cs : list call) (self : ReviewSchema) :
  let self' := after (chain do_call cs) self in
  course_name self' = course_name self
  /\ course_url self' = course_url self
  /\ course_image self' = course_image self.
Proof.
  revert self. induction cs as [|c cs IH]; intros self; cbv zeta.
  - repeat split; reflexivity.
  - rewrite chain_cons.
    destruct (IH (after (do_call c) self)) as (-> & -> & ->).
    destruct c; repeat split; reflexivity.
Qed.

Lemma to_json_review (self : ReviewSchema) :
  item "review" (result to_json self)
  = if nonempty (reviews self) then Some (PyList (reviews self)) else None.
Proof.
  unfold result, to_json, bind, attr, ret; simpl.
  destruct (reviews self); reflexivity.
Qed.

Lemma review_to_json_keys (self : ReviewSchema) :
  keys (result to_json self)
  = ([ "@context"; "@type"; "name"; "url"; "image"; "aggregateRating" ]
     ++ (if nonempty (reviews self) then ["review"] else []))%list.
Proof.
  unfold result, to_json, bind, attr, ret; simpl.
  destruct (reviews self); reflexivity.
Qed.

End ReviewStored.

(** X10.  On a ReviewSchema built by the constructor and any chain of
    calls, "review" is absent when add_review was never called and is
    otherwise a list with one entry per add_review call; reviewCount is
    the number of add_review calls in both cases, so it is always the
    length of the emitted list. *)
Theorem review_list_field :
  forall (name url image : string) (cs : list Review.call),
    let out :=
      result Review.to_json
        (after (chain Review.do_call cs) (Review.init name url image)) in
    let n := List.length (Review.added_reviews cs) in
    item2 "aggregateRating" "reviewCount" out = Some (Int (Z.of_nat n))
    /\ (n = 0%nat -> item "review" out = None)
    /\ (n <> 0%nat ->
        exists l, item "review" out = Some (PyList l) /\ List.length l = n).
Proof.
  intros name url image cs out n. subst out.
  set (self := after (chain Review.do_call cs) (Review.init name url image)).
  assert (Hrev : List.length (Review.reviews self) = n).
  { unfold self. rewrite reviews_after_chain. simpl app.
    now rewrite length_map. }
  unfold item2. rewrite to_json_aggregate, to_json_review.
  repeat split.
  - simpl. unfold len. now rewrite Hrev.
  - intros Hn. rewrite Hn in Hrev.
    destruct (Review.reviews self); [reflexivity | discriminate].
  - intros Hn. exists (Review.reviews self).
    destruct (Review.reviews self); [simpl in Hrev; congruence|].
    split; [reflexivity | exact Hrev].
Qed.

Lemma review_list_field_witness :
  exists l,
    item "review"
      (result Review.to_json
         (after (chain Review.do_call
                   [ Review.AddReview "Great" "Loved it" (PyInt 5)
                       "2026-01-05" "Ann";
                     Review.SetAggregateRating (PyFloat 4.9) (PyInt 427);
                     Review.AddReview "Good" "Pricey" (PyInt 4)
                       "2025-12-15" "Bob" ])
            (Review.init "Pine Valley" "https://x" "https://x/i.jpg")))
    = Some (PyList l)
    /\ List.length l = 2%nat.
Proof.
  apply (review_list_field "Pine Valley" "https://x" "https://x/i.jpg"
           [ Review.AddReview "Great" "Loved it" (PyInt 5)
               "2026-01-05" "Ann";
             Review.SetAggregateRating (PyFloat 4.9) (PyInt 427);
             Review.AddReview "Good" "Pricey" (PyInt 4)
               "2025-12-15" "Bob" ]).
  simpl. discriminate.
Defined.

(** X11.  The i-th add_review call of a chain is the i-th entry of
    "review": a Review object with the call's headline, body, publication
    date and author name, and a Rating whose ratingValue is str() of the
    rating passed, whatever it is (no range check), with bestRating "5"
    and worstRating "1". *)
Theorem review_entries :
  forall (name url image : string) (cs : list Review.call) (i : nat)
         (headline body : string) (rating : scalar)
         (date_published author_name : string),
    nth_error (Review.added_reviews cs) i
    = Some (headline, body, rating, date_published, author_name) ->
    exists l r,
      item "review"
        (result Review.to_json
           (after (chain Review.do_call cs) (Review.init name url image)))
      = Some l
      /\ index i l = Some r
      /\ item "@type" r = Some (Str "Review")
      /\ item "headline" r = Some (Str headline)
      /\ item "reviewBody" r = Some (Str body)
      /\ item "datePublished" r = Some (Str date_published)
      /\ item2 "author" "name" r = Some (Str author_name)
      /\ item2 "reviewRating" "ratingValue" r = Some (Str (str rating))
      /\ item2 "reviewRating" "bestRating" r = Some (Str "5")
      /\ item2 "reviewRating" "worstRating" r = Some (Str "1").
Proof.
  intros name url image cs i headline body rating date_published
    author_name Hi.
  rewrite to_json_review, reviews_after_chain. simpl app.
  match goal with
  | |- context [map ?f (Review.added_reviews cs)] => set (entry := f)
  end.
  assert (Hne : nonempty (map entry (Review.added_reviews cs)) = true).
  { destruct (Review.added_reviews cs); [destruct i; discriminate|].
    reflexivity. }
  rewrite Hne.
  exists (PyList (map entry (Review.added_reviews cs))).
  exists (entry (headline, body, rating, date_published, author_name)).
  split; [reflexivity|]. split.
  - simpl index. apply map_nth_error. exact Hi.
  - repeat split; reflexivity.
Qed.

Lemma review_entries_witness :
  exists l r,
    item "review"
      (result Review.to_json
         (after (chain Review.do_call
                   [ Review.AddReview "Great" "Loved it" (PyInt 5)
                       "2026-01-05" "Ann";
                     Review.SetAggregateRating (PyFloat 4.9) (PyInt 427);
                     Review.AddReview "Off the scale" "Eleven" (PyInt 11)
                       "2025-12-15" "Bob" ])
            (Review.init "Pine Valley" "https://x" "https://x/i.jpg")))
    = Some l
    /\ index 1 l = Some r
    /\ item "headline" r = Some (Str "Off the scale")
    /\ item2 "reviewRating" "ratingValue" r = Some (Str "11")
    /\ item2 "reviewRating" "bestRating" r = Some (Str "5").
Proof.
  destruct (review_entries "Pine Valley" "https://x" "https://x/i.jpg"
              [ Review.AddReview "Great" "Loved it" (PyInt 5)
                  "2026-01-05" "Ann";
                Review.SetAggregateRating (PyFloat 4.9) (PyInt 427);
                Review.AddReview "Off the scale" "Eleven" (PyInt 11)
                  "2025-12-15" "Bob" ]
              1%nat "Off the scale" "Eleven" (PyInt 11) "2025-12-15" "Bob"
              eq_refl)
    as (l & r & Hl & Hr & _ & Hh & _ & _ & _ & Hv & Hb & _).
  exists l, r. repeat split; assumption.
Defined.

(** X12.  set_aggregate_rating overwrites: after it, and after any
    add_review calls that follow, ratingValue is str() of the value it was
    given and ratingCount is the count it was given, whatever was stored
    before; the bounds stay "5" and "1". *)
Theorem aggregate_rating_last_wins :
  forall (self : Review.ReviewSchema) (rating_value rating_count : scalar)
         (cs : list Review.call),
    forallb Review.is_add_review cs = true ->
    item "aggregateRating"
      (result Review.to_json
         (after (Review.set_aggregate_rating rating_value rating_count ;;
                 chain Review.do_call cs) self))
    = Some (PyDict
        [ ("@type", Str "AggregateRating");
          ("ratingValue", Str (str rating_value));
          ("bestRating", Str "5");
          ("worstRating", Str "1");
          ("ratingCount", Atom rating_count);
          ("reviewCount",
             Int (len (Review.reviews self)
                  + Z.of_nat (List.length (Review.added_reviews cs)))) ]).
Proof.
  intros self rating_value rating_count cs Hcs.
  rewrite after_bind, to_json_aggregate.
  set (self' := after (Review.set_aggregate_rating rating_value rating_count)
                  self).
  destruct (review_defaults_kept cs self' Hcs) as [Hv Hc].
  cbv beta. rewrite Hv, Hc, reviews_after_chain.
  rewrite len_app. unfold len at 2. rewrite length_map.
  reflexivity.
Qed.

Lemma aggregate_rating_last_wins_witness :
  item "aggregateRating"
    (result Review.to_json
       (after (Review.set_aggregate_rating (PyInt 5) (PyInt 12) ;;
               chain Review.do_call
                 [Review.AddReview "Great" "Loved it" (PyInt 5)
                    "2026-01-05" "Ann"])
          (after (Review.set_aggregate_rating (PyFloat 4.9) (PyInt 427))
             (Review.init "Pine Valley" "https://x" "https://x/i.jpg"))))
  = Some (PyDict
      [ ("@type", Str "AggregateRating");
        ("ratingValue", Str "5");
        ("bestRating", Str "5");
        ("worstRating", Str "1");
        ("ratingCount", Int 12);
        ("reviewCount", Int 1) ]).
Proof.
  apply (aggregate_rating_last_wins
           (after (Review.set_aggregate_rating (PyFloat 4.9) (PyInt 427))
              (Review.init "Pine Valley" "https://x" "https://x/i.jpg"))
           (PyInt 5) (PyInt 12)
           [Review.AddReview "Great" "Loved it" (PyInt 5)
              "2026-01-05" "Ann"]).
  reflexivity.
Defined.

(** ** BreadcrumbSchema: the stored list only grows *)

Section BreadcrumbStored.
Import Breadcrumb.

Lemma items_grow (cs : list call) (self : BreadcrumbSchema) :
  exists added,
    items (after (chain do_call cs) self) = (items self ++ added)%list
    /\ List.length added = List.length cs.
Proof.
  revert self. induction cs as [|[name url] cs IH]; intros self.
  - exists []. simpl. now rewrite app_nil_r.
  - rewrite chain_cons.
    destruct (IH (after (do_call (name, url)) self)) as (added & -> & Hlen).
    destruct (items_after_add_item self name url) as (it & Hit & _).
    unfold do_call; simpl fst; simpl snd. rewrite Hit.
    exists (it :: added). rewrite <- app_assoc. simpl.
    split; [reflexivity | now rewrite Hlen].
Qed.

End BreadcrumbStored.

(** X13.  "itemListElement" is always present: it is the empty list on a
    fresh BreadcrumbSchema, and a chain of add_item calls leaves one item
    per call.  Further add_item calls only append: the items stored by the
    calls made so far stay, unchanged, at the front of the list. *)
Theorem breadcrumb_append_only :
  item "itemListElement" (result Breadcrumb.to_json Breadcrumb.init)
  = Some (PyList [])
  /\ (forall cs1 cs2 : list Breadcrumb.call,
      exists before added,
        item "itemListElement"
          (result Breadcrumb.to_json
             (after (chain Breadcrumb.do_call cs1) Breadcrumb.init))
        = Some (PyList before)
        /\ item "itemListElement"
             (result Breadcrumb.to_json
                (after (chain Breadcrumb.do_call (cs1 ++ cs2))
                   Breadcrumb.init))
           = Some (PyList (before ++ added))
        /\ List.length before = List.length cs1
        /\ List.length added = List.length cs2).
Proof.
  split; [reflexivity|].
  intros cs1 cs2. rewrite chain_app, !breadcrumb_to_json_items.
  set (s1 := after (chain Breadcrumb.do_call cs1) Breadcrumb.init).
  destruct (items_grow cs2 s1) as (added & Hadded & Hlen).
  exists (Breadcrumb.items s1), added.
  split; [reflexivity|]. split; [now rewrite Hadded|].
  split; [|exact Hlen].
  unfold s1. rewrite items_length_after_chain. reflexivity.
Qed.

(** ** TeeTimeEventSchema *)

Section TeeTimeEventStored.
Import TeeTimeEvent.

Lemma availability_after_chain (cs : list call) (self : TeeTimeEventSchema) :
  availability (after (chain do_call cs) self)
  = match last_availability cs with
    | Some a => a
    | None => availability self
    end.
Proof.
  revert self. induction cs as [|c cs IH]; intros self.
  - reflexivity.
  - rewrite chain_cons, IH. simpl.
    destruct (last_availability cs); [reflexivity|].
    destruct c; reflexivity.
Qed.

Lemma organizer_kept (cs : list call) (self : TeeTimeEventSchema) :
  existsb is_set_organizer cs = false ->
  let self' := after (chain do_call cs) self in
  organizer_name self' = organizer_name self
  /\ organizer_url self' = organizer_url self
  /\ organizer_phone self' = organizer_phone self.
Proof.
  revert self. induction cs as [|c cs IH]; intros self Hcs; cbv zeta.
  - repeat split; reflexivity.
  - simpl in Hcs. apply orb_false_elim in Hcs. destruct Hcs as [Hc Hcs].
    rewrite chain_cons.
    destruct (IH (after (do_call c) self) Hcs) as (-> & -> & ->).
    destruct c; [|discriminate]. repeat split; reflexivity.
Qed.

Lemma event_kept (cs : list call) (self : TeeTimeEventSchema) :
  let self' := after (chain do_call cs) self in
  name self' = name self /\ start_date self' = start_date self
  /\ end_date self' = end_date self
  /\ location_name self' = location_name self
  /\ location_address self' = location_address self
  /\ price self' = price self /\ currency self' = currency self.
Proof.
  revert self. induction cs as [|c cs IH]; intros self; cbv zeta.
  - repeat split; reflexivity.
  - rewrite chain_cons.
    destruct (IH (after (do_call c) self))
      as (-> & -> & -> & -> & -> & -> & ->).
    destruct c; repeat split; reflexivity.
Qed.

Lemma to_json_organizer (self : TeeTimeEventSchema) :
  item "organizer" (result to_json self)
  = Some (PyDict
      ([ ("@type", Str "Organization");
         ("name", Str (organizer_name self)) ]
       ++ (if truthy (organizer_url self)
           then [("url", Atom (organizer_url self))] else [])
       ++ (if truthy (organizer_phone self)
           then [("telephone", Atom (organizer_phone self))] else []))%list).
Proof.
  unfold result, to_json, bind, attr, ret. simpl.
  destruct (truthy (organizer_url self)), (truthy (organizer_phone self));
    reflexivity.
Qed.

End TeeTimeEventStored.

(** X14.  The organizer object is always emitted, with its name even when
    that is the empty string of a fresh event.  set_organizer replaces all
    three of name, url and phone: afterwards, and until the next
    set_organizer call, "url" and "telephone" are present exactly when the
    value passed is truthy, url before telephone, so a call without them
    drops the ones stored before. *)
Theorem organizer_field :
  (forall (name start_date end_date location_name : string)
          (location_address : value) (price : scalar) (currency : string)
          (cs : list TeeTimeEvent.call),
      existsb TeeTimeEvent.is_set_organizer cs = false ->
      item "organizer"
        (result TeeTimeEvent.to_json
           (after (chain TeeTimeEvent.do_call cs)
              (TeeTimeEvent.init name start_date end_date location_name
                 location_address price currency)))
      = Some (PyDict [ ("@type", Str "Organization"); ("name", Str "") ]))
  /\ (forall (self : TeeTimeEvent.TeeTimeEventSchema) (name : string)
             (url phone : scalar) (cs : list TeeTimeEvent.call),
      existsb TeeTimeEvent.is_set_organizer cs = false ->
      item "organizer"
        (result TeeTimeEvent.to_json
           (after (TeeTimeEvent.set_organizer name url phone ;;
                   chain TeeTimeEvent.do_call cs) self))
      = Some (PyDict
          ([ ("@type", Str "Organization"); ("name", Str name) ]
           ++ (if truthy url then [("url", Atom url)] else [])
           ++ (if truthy phone then [("telephone", Atom phone)] else []))%list)).
Proof.
  split.
  - intros name start_date end_date location_name location_address price
      currency cs Hcs.
    rewrite to_json_organizer.
    destruct (organizer_kept cs
                (TeeTimeEvent.init name start_date end_date location_name
                   location_address price currency) Hcs) as (-> & -> & ->).
    reflexivity.
  - intros self name url phone cs Hcs.
    rewrite after_bind, to_json_organizer. cbv beta.
    destruct (organizer_kept cs
                (after (TeeTimeEvent.set_organizer name url phone) self) Hcs)
      as (-> & -> & ->).
    reflexivity.
Qed.

Lemma organizer_field_witness :
  item "organizer"
    (result TeeTimeEvent.to_json
       (after (TeeTimeEvent.set_organizer "Pine Valley Golf Club"
                 PyNone (PyStr "+1-609-465-3886") ;;
               chain TeeTimeEvent.do_call
                 [TeeTimeEvent.SetAvailability "PreOrder"])
          (after (TeeTimeEvent.set_organizer "Old Club"
                    (PyStr "https://old.example.com") PyNone)
             (TeeTimeEvent.init "Golf Tee Time - 8:00 AM"
                "2026-02-15T08:00:00-05:00" "2026-02-15T12:00:00-05:00"
                "Pine Valley Golf Club" (PyDict []) (PyFloat 185.0) "USD"))))
  = Some (PyDict [ ("@type", Str "Organization");
                   ("name", Str "Pine Valley Golf Club");
                   ("telephone", Str "+1-609-465-3886") ]).
Proof.
  apply (proj2 organizer_field
           (after (TeeTimeEvent.set_organizer "Old Club"
                     (PyStr "https://old.example.com") PyNone)
              (TeeTimeEvent.init "Golf Tee Time - 8:00 AM"
                 "2026-02-15T08:00:00-05:00" "2026-02-15T12:00:00-05:00"
                 "Pine Valley Golf Club" (PyDict []) (PyFloat 185.0) "USD"))
           "Pine Valley Golf Club" PyNone (PyStr "+1-609-465-3886")
           [TeeTimeEvent.SetAvailability "PreOrder"]).
  reflexivity.
Defined.

(** X15.  On an event built by the constructor and any chain of calls,
    offers.availability is "https://schema.org/" followed by the argument
    of the last set_availability call, or by the default "InStock" when
    there was none; set_organizer calls do not affect it. *)
Theorem availability_last_wins :
  forall (name start_date end_date location_name : string)
         (location_address : value) (price : scalar) (currency : string)
         (cs : list TeeTimeEvent.call),
    item2 "offers" "availability"
      (result TeeTimeEvent.to_json
         (after (chain TeeTimeEvent.do_call cs)
            (TeeTimeEvent.init name start_date end_date location_name
               location_address price currency)))
    = Some (Str ("https://schema.org/"
                 ++ match TeeTimeEvent.last_availability cs with
                    | Some a => a
                    | None => "InStock"
                    end)).
Proof.
  intros. rewrite to_json_availability, availability_after_chain.
  reflexivity.
Qed.

(** X16.  Whatever mutators are called, an event's to_json has the same
    ten keys in the same order, carries the constructor's name, dates,
    location name and address and currency, the price as str() of the
    constructor's price, and the two fixed status URIs. *)
Theorem tee_time_fixed_fields :
  forall (name start_date end_date location_name : string)
         (location_address : value) (price : scalar) (currency : string)
         (cs : list TeeTimeEvent.call),
    let out :=
      result TeeTimeEvent.to_json
        (after (chain TeeTimeEvent.do_call cs)
           (TeeTimeEvent.init name start_date end_date location_name
              location_address price currency)) in
    keys out
    = [ "@context"; "@type"; "name"; "startDate"; "endDate"; "eventStatus";
        "eventAttendanceMode"; "location"; "offers"; "organizer" ]
    /\ item "@context" out = Some (Str "https://schema.org")
    /\ item "@type" out = Some (Str "SportsEvent")
    /\ item "name" out = Some (Str name)
    /\ item "startDate" out = Some (Str start_date)
    /\ item "endDate" out = Some (Str end_date)
    /\ item "eventStatus" out
       = Some (Str "https://schema.org/EventScheduled")
    /\ item "eventAttendanceMode" out
       = Some (Str "https://schema.org/OfflineEventAttendanceMode")
    /\ item "location" out
       = Some (PyDict [ ("@type", Str "GolfCourse");
                        ("name", Str location_name);
                        ("address", location_address) ])
    /\ item2 "offers" "price" out = Some (Str (str price))
    /\ item2 "offers" "priceCurrency" out = Some (Str currency).
Proof.
  intros. subst out.
  set (start := TeeTimeEvent.init _ _ _ _ _ _ _).
  pose proof (event_kept cs start) as H. cbv zeta in H.
  destruct H as (Hn & Hs & He & Hl & Ha & Hp & Hc).
  set (self := after (chain TeeTimeEvent.do_call cs) start) in *.
  unfold result, TeeTimeEvent.to_json, bind, attr, ret, item2. simpl.
  rewrite Hn, Hs, He, Hl, Ha, Hp, Hc.
  repeat split; reflexivity.
Qed.

(** X17.  On a ReviewSchema built by the constructor and any chain of
    calls, to_json carries the constructor's name, url and image under
    the fixed "@context" and "@type"; its keys are, in order, @context,
    @type, name, url, image, aggregateRating, followed by review exactly
    when add_review was called.  A BreadcrumbSchema's keys are always
    @context, @type, itemListElement. *)
Theorem review_and_breadcrumb_keys :
  (forall (name url image : string) (cs : list Review.call),
      let out :=
        result Review.to_json
          (after (chain Review.do_call cs) (Review.init name url image)) in
      keys out
      = ([ "@context"; "@type"; "name"; "url"; "image"; "aggregateRating" ]
         ++ (if nonempty (Review.added_reviews cs) then ["review"] else []))%list
      /\ item "@context" out = Some (Str "https://schema.org")
      /\ item "@type" out = Some (Str "LocalBusiness")
      /\ item "name" out = Some (Str name)
      /\ item "url" out = Some (Str url)
      /\ item "image" out = Some (Str image))
  /\ (forall self : Breadcrumb.BreadcrumbSchema,
      keys (result Breadcrumb.to_json self)
      = [ "@context"; "@type"; "itemListElement" ]
      /\ item "@context" (result Breadcrumb.to_json self)
         = Some (Str "https://schema.org")
      /\ item "@type" (result Breadcrumb.to_json self)
         = Some (Str "BreadcrumbList")).
Proof.
  split.
  - intros name url image cs out. subst out.
    set (start := Review.init name url image).
    pose proof (review_identity_kept cs start) as H. cbv zeta in H.
    destruct H as (Hn & Hu & Hi).
    pose proof (reviews_after_chain cs start) as Hr. simpl app in Hr.
    set (self := after (chain Review.do_call cs) start) in *.
    rewrite review_to_json_keys.
    unfold result, Review.to_json, bind, attr, ret. simpl.
    rewrite Hn, Hu, Hi, Hr.
    destruct (Review.added_reviews cs); repeat split; reflexivity.
  - intros self. repeat split; reflexivity.
Qed.
